(** * hello-helm: the backend and frontend Helm charts, verified

    The repository deploys a FastAPI backend (with a bundled PostgreSQL)
    and a Next.js frontend through two Helm charts.  The chart templates
    are the program: each one is a function from the release name and the
    chart values to a Kubernetes manifest.  This development embeds those
    templates as Rocq functions and proves properties of the rendered
    resources.

    Sources embedded here:
    - [docs/FRONTEND-DEPLOYMENT-PLAN.md], Task 3 ([_helpers.tpl]), Task 4
      ([deployment.yaml]) and Task 5 ([service.yaml]) of the frontend chart;
    - [docs/HELM-CHART-WALKTHROUGH.md], Steps 2 to 8 (backend
      [values.yaml], [deployment.yaml], [service.yaml],
      [postgres-secret.yaml], [postgres-statefulset.yaml],
      [postgres-service.yaml]);
    - [Makefile] (the storage claim deleted by [helm-destroy-backend]);
    - [helm_charts/frontend/deploy-local.sh] (how the frontend release is
      installed against a backend release). *)

From Stdlib Require Import String Ascii List Bool Arith PeanoNat Lia ZArith.
From Stdlib Require Import QArith_base DecimalString Permutation ZifyNat.
From Stdlib Require OrderedTypeEx DecimalZ.
Import ListNotations.

Open Scope nat_scope.
Open Scope list_scope.
Open Scope string_scope.

(** ** Template functions (Go [text/template] and sprig)

    Go strings are byte sequences; [string] is a sequence of [ascii], one
    per byte. *)

Module Sprig.

(** [trunc n s] for a positive [n]: the first [n] bytes of [s], all of [s]
    when it is shorter. *)
Fixpoint trunc (n : nat) (s : string) : string :=
  match n, s with
  | S n', String c s' => String c (trunc n' s')
  | _, _ => EmptyString
  end.

(** [trimSuffix suf s]: [s] without its final [suf] when [s] ends with
    [suf], [s] itself otherwise ([strings.TrimSuffix]). *)
Fixpoint trimSuffix (suf s : string) : string :=
  match s with
  | EmptyString => EmptyString
  | String c s' =>
      if String.eqb s suf then EmptyString else String c (trimSuffix suf s')
  end.

(** [contains sub s]: does [sub] occur in [s] ([strings.Contains]). *)
Fixpoint contains (sub s : string) : bool :=
  String.prefix sub s ||
  match s with
  | EmptyString => false
  | String _ s' => contains sub s'
  end.

(** Truth of a string value in an [if]: the empty string is false. *)
Definition truthy (s : string) : bool := negb (String.eqb s EmptyString).

(** [default d v]: [v] unless it is empty. *)
Definition default (d v : string) : string := if truthy v then v else d.

(** [printf] with the format [%s-%s]. *)
Definition printf_s_dash_s (a b : string) : string := a ++ "-" ++ b.

(** [printf] with the format [%d]: the decimal numeral of the integer,
    with a minus sign when it is negative. *)
Definition printf_d (z : Z) : string := NilEmpty.string_of_int (Z.to_int z).

(** The integer a decimal numeral denotes: what a reader of the rendered
    text takes the number to be.  A numeral is a run of digits without a
    leading zero (the single digit 0 apart), after a minus sign for a
    negative number; no other text denotes an integer. *)
Definition decimal_value (s : string) : option Z :=
  match NilEmpty.int_of_string s with
  | Some d =>
      if Decimal.int_eq_dec (Decimal.norm d) d then Some (Z.of_int d)
      else None
  | None => None
  end.

(** Go's [int] has 64 bits. *)
Definition min_int64 : Z := (- 2 ^ 63)%Z.
Definition max_int64 : Z := (2 ^ 63 - 1)%Z.

Definition in_int64 (z : Z) : bool :=
  (min_int64 <=? z)%Z && (z <=? max_int64)%Z.

(** [int x] on a number of the values.  A number read from YAML is a
    [float64] (an [int64] when it comes from [--set]); [x] is its exact
    value.  [int] is the Go conversion to [int]: the integer part, rounded
    toward zero, when that fits 64 bits; a value outside the range converts
    to the least [int64] (the result of the conversion on amd64). *)
Definition int (x : Q) : Z :=
  let q := Z.quot (Qnum x) (Z.pos (Qden x)) in
  if in_int64 q then q else min_int64.

End Sprig.

(** ** Helpers of [_helpers.tpl] *)

Module Helpers.
Import Sprig.

(** The naming section of a chart's values; both overrides are the empty
    string by default. *)
Record Naming := mkNaming {
  nameOverride : string;
  fullnameOverride : string
}.

Definition default_naming : Naming := mkNaming EmptyString EmptyString.

(** The helper [frontend.name]. *)
Definition name (chartName : string) (n : Naming) : string :=
  trimSuffix "-" (trunc 63 (default chartName (nameOverride n))).

(** The helper [frontend.fullname]; the frontend chart copies it from the
    backend chart, which has it under its own chart name. *)
Definition fullname (chartName : string) (n : Naming) (releaseName : string)
  : string :=
  if truthy (fullnameOverride n) then
    trimSuffix "-" (trunc 63 (fullnameOverride n))
  else
    let name := default chartName (nameOverride n) in
    if contains name releaseName then
      trimSuffix "-" (trunc 63 releaseName)
    else
      trimSuffix "-" (trunc 63 (printf_s_dash_s releaseName name)).

(** The walkthrough prints the backend helper abridged, without the
    truncation and without the test on the release name.  The names the
    documents show for the release [my-backend] (Deployment and Service
    [my-backend], reached by the frontend at [http://my-backend:8000]) are
    those of the full helper above, which the templates below use. *)
Definition fullname_abridged (chartName : string) (n : Naming)
    (releaseName : string) : string :=
  if truthy (fullnameOverride n) then fullnameOverride n
  else printf_s_dash_s releaseName chartName.

(** Names built inline by the PostgreSQL templates:
    [{{ .Release.Name }}-postgres] (StatefulSet, its [serviceName] and the
    headless Service) and [{{ .Release.Name }}-postgres-secret]. *)
Definition postgres_name (releaseName : string) : string :=
  releaseName ++ "-postgres".

Definition postgres_secret_name (releaseName : string) : string :=
  releaseName ++ "-postgres-secret".

(** The volume claim template of the StatefulSet. *)
Definition claim_template : string := "postgres-data".

(** The claim of the single PostgreSQL replica, as the Makefile deletes it:
    [postgres-data-$(RELEASE_NAME)-postgres-0]. *)
Definition storage_claim_name (releaseName : string) : string :=
  claim_template ++ "-" ++ postgres_name releaseName ++ "-0".

End Helpers.

(** ** Base64, as [b64enc] applies it ([encoding/base64], standard
    alphabet with [=] padding) *)

Module Base64.

Definition alphabet : string :=
  "ABCDEFGHIJKLMNOPQRSTUVWXYZabcdefghijklmnopqrstuvwxyz0123456789+/".

Definition pad : ascii := "="%char.

(** The character of a 6-bit value. *)
Definition char_of (i : nat) : ascii :=
  match String.get i alphabet with
  | Some c => c
  | None => pad
  end.

(** The 6-bit value of a character of the alphabet. *)
Definition index_of (c : ascii) : option nat :=
  String.index 0 (String c EmptyString) alphabet.

(** Three input bytes give four characters; a final group of one or two
    bytes is padded to four characters. *)
Fixpoint b64enc (s : string) : string :=
  match s with
  | EmptyString => EmptyString
  | String a EmptyString =>
      let x := nat_of_ascii a in
      String (char_of (x / 4))
        (String (char_of (x mod 4 * 16))
           (String pad (String pad EmptyString)))
  | String a (String b EmptyString) =>
      let x := nat_of_ascii a in
      let y := nat_of_ascii b in
      String (char_of (x / 4))
        (String (char_of (x mod 4 * 16 + y / 16))
           (String (char_of (y mod 16 * 4)) (String pad EmptyString)))
  | String a (String b (String c rest)) =>
      let x := nat_of_ascii a in
      let y := nat_of_ascii b in
      let z := nat_of_ascii c in
      String (char_of (x / 4))
        (String (char_of (x mod 4 * 16 + y / 16))
           (String (char_of (y mod 16 * 4 + z / 64))
              (String (char_of (z mod 64)) (b64enc rest))))
  end.

(** The decoder a reader of the Secret applies ([base64 -d], the API
    server): four characters give three bytes, padding is accepted in the
    last group only, anything else is rejected. *)
Fixpoint b64dec (s : string) : option string :=
  match s with
  | EmptyString => Some EmptyString
  | String c1 (String c2 (String c3 (String c4 rest))) =>
      match index_of c1, index_of c2 with
      | Some i1, Some i2 =>
          let b1 := ascii_of_nat (i1 * 4 + i2 / 16) in
          if Ascii.eqb c3 pad then
            if Ascii.eqb c4 pad && String.eqb rest EmptyString
            then Some (String b1 EmptyString)
            else None
          else
            match index_of c3 with
            | Some i3 =>
                let b2 := ascii_of_nat (i2 mod 16 * 16 + i3 / 4) in
                if Ascii.eqb c4 pad then
                  if String.eqb rest EmptyString
                  then Some (String b1 (String b2 EmptyString))
                  else None
                else
                  match index_of c4, b64dec rest with
                  | Some i4, Some tail =>
                      let b3 := ascii_of_nat (i3 mod 4 * 64 + i4) in
                      Some (String b1 (String b2 (String b3 tail)))
                  | _, _ => None
                  end
            | None => None
            end
      | _, _ => None
      end
  | _ => None
  end.

End Base64.

(** ** Rendered resources *)

(** An entry of a container's [env]: a literal [value], or a
    [valueFrom.secretKeyRef] naming a Secret and one of its keys. *)
Inductive EnvSource :=
| Value (v : string)
| SecretKeyRef (secret key : string).

Record EnvVar := mkEnvVar {
  env_name : string;
  env_source : EnvSource
}.

(** The commands of the init container's script. *)
Inductive ShCmd :=
| Echo (msg : string)
| Sleep (seconds : nat).

(** [until nc -z host port; do body; done]. *)
Record UntilNc := mkUntilNc {
  nc_host : string;
  nc_port : Z;
  loop_body : list ShCmd
}.

Record InitContainer := mkInitContainer {
  ic_name : string;
  ic_image : string;
  ic_script : UntilNc
}.

Record Deployment := mkDeployment {
  d_name : string;
  d_replicas : option nat;
  d_initContainers : list InitContainer;
  d_container : string;
  d_image : string;
  d_containerPort : Z;
  d_env : list EnvVar
}.

Record Service := mkService {
  svc_name : string;
  svc_type : string;
  svc_port : Z;
  svc_targetPort : string;
  svc_headless : bool
}.

Record Secret := mkSecret {
  sec_name : string;
  sec_data : list (string * string)
}.

Record StatefulSet := mkStatefulSet {
  ss_name : string;
  ss_serviceName : string;
  ss_replicas : nat;
  ss_image : string;
  ss_containerPort : Z;
  ss_env : list EnvVar;
  ss_claimTemplate : string;
  ss_storage : string
}.

Inductive Resource :=
| RSecret (s : Secret)
| RService (s : Service)
| RStatefulSet (s : StatefulSet)
| RDeployment (d : Deployment).

(** The name under [metadata.name]. *)
Definition resource_name (r : Resource) : string :=
  match r with
  | RSecret s => sec_name s
  | RService s => svc_name s
  | RStatefulSet s => ss_name s
  | RDeployment d => d_name d
  end.

(** ** Chart values *)

Record Chart := mkChart {
  chart_name : string;
  chart_appVersion : string
}.

Definition backend_chart : Chart := mkChart "backend" "0.1.0".
Definition frontend_chart : Chart := mkChart "frontend" "0.1.0".

Record PostgresAuth := mkPostgresAuth {
  auth_database : string;
  auth_username : string;
  auth_password : string
}.

Record PostgresValues := mkPostgresValues {
  pg_enabled : bool;
  pg_image_repository : string;
  pg_image_tag : string;
  pg_auth : PostgresAuth;
  pg_persistence_size : string
}.

(** [.Values.env] is a YAML mapping.  A Go map has no order of its own, so
    the entries are kept as a list in whatever order the map holds them;
    the keys of a mapping are distinct. *)
Definition EnvMap := list (string * string).

Record BackendValues := mkBackendValues {
  b_naming : Helpers.Naming;
  b_replicaCount : nat;
  b_image_repository : string;
  b_image_tag : string;
  b_service_type : string;
  b_service_port : Z;
  b_env : EnvMap;
  b_postgres : PostgresValues
}.

(** The [backend] section of the frontend values: the backend release the
    frontend talks to, its port (a YAML number, held by its exact value)
    and the optional [customUrl], absent from the default values. *)
Record BackendRef := mkBackendRef {
  ref_releaseName : string;
  ref_port : Q;
  ref_customUrl : option string
}.

Record FrontendValues := mkFrontendValues {
  f_naming : Helpers.Naming;
  f_replicaCount : nat;
  f_autoscaling_enabled : bool;
  f_image_repository : string;
  f_image_tag : string;
  f_service_type : string;
  f_service_port : Z;
  f_env : EnvMap;
  f_backend : BackendRef
}.

(** The defaults of the two [values.yaml] files. *)
Definition default_postgres : PostgresValues :=
  mkPostgresValues true "postgres" "15-alpine"
    (mkPostgresAuth "appdb" "appuser" "supersecret") "1Gi".

Definition default_backend_values : BackendValues :=
  mkBackendValues Helpers.default_naming 1 "backend-app" "latest"
    "ClusterIP" 8000%Z [("PYTHONUNBUFFERED", "1")] default_postgres.

Definition default_frontend_values : FrontendValues :=
  mkFrontendValues Helpers.default_naming 1 false "frontend-app" "latest"
    "ClusterIP" 3000%Z [("NODE_ENV", "production")]
    (mkBackendRef "my-backend" (Qmake 8000 1) None).

(** ** Templates *)

Module Templates.
Import Sprig Helpers.

(** [range $key, $value := .Values.env]: the template engine visits the
    keys of a map in sorted order, whatever order the map holds them in. *)
Fixpoint insert_by_key (kv : string * string) (l : EnvMap) : EnvMap :=
  match l with
  | [] => [kv]
  | kv' :: l' =>
      if String.leb (fst kv) (fst kv') then kv :: l
      else kv' :: insert_by_key kv l'
  end.

Definition sorted_entries (m : EnvMap) : EnvMap :=
  fold_right insert_by_key [] m.

Definition range_env (m : EnvMap) : list EnvVar :=
  map (fun kv => mkEnvVar (fst kv) (Value (snd kv))) (sorted_entries m).

(** *** Backend chart *)

(** The line the init container writes on each retry. *)
Definition waiting_line : string := "Waiting for postgres...".

(** The init container of [templates/deployment.yaml]:
    [until nc -z {{ .Release.Name }}-postgres 5432; do echo ...; sleep 2; done].
    It stands outside the [if .Values.postgres.enabled] of the [env]
    section. *)
Definition wait_for_postgres (releaseName : string) : InitContainer :=
  mkInitContainer "wait-for-postgres" "busybox:1.36"
    (mkUntilNc (releaseName ++ "-postgres") 5432%Z
       [Echo waiting_line; Sleep 2]).

(** The database entries of the backend [env] that
    [templates/deployment.yaml] shows, inside
    [if .Values.postgres.enabled]: DB_HOST and DB_NAME. *)
Definition printed_database_env (releaseName : string) : list EnvVar :=
  [ mkEnvVar "DB_HOST" (Value (releaseName ++ "-postgres"));
    mkEnvVar "DB_NAME"
      (SecretKeyRef (releaseName ++ "-postgres-secret") "database") ].

(** Modelled from the spec: the entries of the backend [env] that follow
    DB_NAME in [helm_charts/backend/templates/deployment.yaml].  The file
    is not among the sources; the walkthrough and the troubleshooting
    notes print it up to DB_NAME and end the block with [# ... etc].
    The specification has a dependent hold the user name and the password
    of the credential bundle as references to the bundle's handle and
    field, never as the literal; the walkthrough's environment-variable
    flow and the chart README name the two entries DB_USER and
    DB_PASSWORD, read from the Secret. *)
Definition elided_database_env (releaseName : string) : list EnvVar :=
  [ mkEnvVar "DB_USER"
      (SecretKeyRef (releaseName ++ "-postgres-secret") "username");
    mkEnvVar "DB_PASSWORD"
      (SecretKeyRef (releaseName ++ "-postgres-secret") "password") ].

Definition database_env (releaseName : string) : list EnvVar :=
  (printed_database_env releaseName ++ elided_database_env releaseName)%list.

Definition backend_deployment (releaseName : string) (v : BackendValues)
  : Deployment :=
  mkDeployment
    (fullname (chart_name backend_chart) (b_naming v) releaseName)
    (Some (b_replicaCount v))
    [wait_for_postgres releaseName]
    (chart_name backend_chart)
    (b_image_repository v ++ ":" ++ b_image_tag v)
    (b_service_port v)
    (range_env (b_env v) ++
     if pg_enabled (b_postgres v) then database_env releaseName else []).

Definition backend_service (releaseName : string) (v : BackendValues)
  : Service :=
  mkService
    (fullname (chart_name backend_chart) (b_naming v) releaseName)
    (b_service_type v) (b_service_port v) "http" false.

(** [templates/postgres-secret.yaml]. *)
Definition postgres_secret (releaseName : string) (v : BackendValues)
  : Secret :=
  let a := pg_auth (b_postgres v) in
  mkSecret (releaseName ++ "-postgres-secret")
    [ ("username", Base64.b64enc (auth_username a));
      ("password", Base64.b64enc (auth_password a));
      ("database", Base64.b64enc (auth_database a)) ].

(** [templates/postgres-statefulset.yaml]. *)
Definition postgres_statefulset (releaseName : string) (v : BackendValues)
  : StatefulSet :=
  let pg := b_postgres v in
  mkStatefulSet
    (releaseName ++ "-postgres")
    (releaseName ++ "-postgres")
    1
    (pg_image_repository pg ++ ":" ++ pg_image_tag pg)
    5432%Z
    [ mkEnvVar "POSTGRES_USER"
        (SecretKeyRef (releaseName ++ "-postgres-secret") "username");
      mkEnvVar "POSTGRES_PASSWORD"
        (SecretKeyRef (releaseName ++ "-postgres-secret") "password");
      mkEnvVar "POSTGRES_DB"
        (SecretKeyRef (releaseName ++ "-postgres-secret") "database");
      mkEnvVar "PGDATA" (Value "/var/lib/postgresql/data/pgdata") ]
    claim_template
    (pg_persistence_size pg).

(** [templates/postgres-service.yaml]: a headless Service. *)
Definition postgres_service (releaseName : string) : Service :=
  mkService (releaseName ++ "-postgres") "ClusterIP" 5432%Z "postgres" true.

(** The manifests of a backend release, in the order the walkthrough
    gives for their creation: Secret, Services, StatefulSet, Deployment.
    The three PostgreSQL templates are wrapped in
    [if .Values.postgres.enabled]. *)
Definition render_backend (releaseName : string) (v : BackendValues)
  : list Resource :=
  (if pg_enabled (b_postgres v)
   then [RSecret (postgres_secret releaseName v)] else []) ++
  [RService (backend_service releaseName v)] ++
  (if pg_enabled (b_postgres v)
   then [RService (postgres_service releaseName);
         RStatefulSet (postgres_statefulset releaseName v)]
   else []) ++
  [RDeployment (backend_deployment releaseName v)].

(** *** Frontend chart *)

(** Truth of [.Values.backend.customUrl] in an [if]: an absent key and
    the empty string are both false. *)
Definition customUrl_set (b : BackendRef) : bool :=
  match ref_customUrl b with
  | Some u => truthy u
  | None => false
  end.

Definition customUrl_value (b : BackendRef) : string :=
  match ref_customUrl b with
  | Some u => u
  | None => EmptyString
  end.

(** The helper [frontend.backendUrl]: the custom URL when it is set,
    [printf] of [http://%s:%d] on the backend release name and the port
    passed through [int] otherwise. *)
Definition backendUrl (v : FrontendValues) : string :=
  if customUrl_set (f_backend v) then customUrl_value (f_backend v)
  else "http://" ++ ref_releaseName (f_backend v) ++ ":" ++
       printf_d (int (ref_port (f_backend v))).

Definition frontend_deployment (releaseName : string) (v : FrontendValues)
  : Deployment :=
  mkDeployment
    (fullname (chart_name frontend_chart) (f_naming v) releaseName)
    (if f_autoscaling_enabled v then None else Some (f_replicaCount v))
    []
    (chart_name frontend_chart)
    (f_image_repository v ++ ":" ++
     default (chart_appVersion frontend_chart) (f_image_tag v))
    (f_service_port v)
    (range_env (f_env v) ++ [mkEnvVar "BACKEND_URL" (Value (backendUrl v))]).

Definition frontend_service (releaseName : string) (v : FrontendValues)
  : Service :=
  mkService
    (fullname (chart_name frontend_chart) (f_naming v) releaseName)
    (f_service_type v) (f_service_port v) "http" false.

Definition render_frontend (releaseName : string) (v : FrontendValues)
  : list Resource :=
  [RService (frontend_service releaseName v);
   RDeployment (frontend_deployment releaseName v)].

End Templates.

(** ** The startup gate at run time

    The init container runs [until nc -z host port; do body; done].  The
    network is a parameter: [reach host port t] tells whether a TCP
    connection to [host:port] succeeds at time [t] (in seconds).  The
    state of the container is its clock and the lines it has written to
    its log, the only thing an operator sees of it. *)

Module Gate.

Record State := mkState {
  clock : nat;
  log : list string
}.

Definition initial : State := mkState 0 [].

Definition run_cmd (st : State) (c : ShCmd) : State :=
  match c with
  | Echo msg => mkState (clock st) (log st ++ [msg])
  | Sleep n => mkState (clock st + n) (log st)
  end.

Definition run_body (body : list ShCmd) (st : State) : State :=
  fold_left run_cmd body st.

(** The container has either completed, which lets the main container
    start, or is still in its loop. *)
Inductive Outcome :=
| Completed (st : State)
| Waiting (st : State).

(** The loop, run for at most [probes] probes. *)
Fixpoint run (reach : string -> Z -> nat -> bool) (u : UntilNc)
    (probes : nat) (st : State) : Outcome :=
  match probes with
  | O => Waiting st
  | S n =>
      if reach (nc_host u) (nc_port u) (clock st) then Completed st
      else run reach u n (run_body (loop_body u) st)
  end.

End Gate.

(** ** A deployment of the stack

    The stack is installed release by release ([make helm-fullstack]
    installs the backend chart, then the frontend chart with
    [--set backend.releaseName=...]).  A configuration is the list of the
    releases installed, each with its chart and values. *)

Inductive ChartValues :=
| BackendChart (v : BackendValues)
| FrontendChart (v : FrontendValues).

Record Release := mkRelease {
  release_name : string;
  release_chart : ChartValues
}.

Definition Configuration := list Release.

Module Render.
Import Helpers Templates.

Definition render (r : Release) : list Resource :=
  match release_chart r with
  | BackendChart v => render_backend (release_name r) v
  | FrontendChart v => render_frontend (release_name r) v
  end.

Definition render_all (cfg : Configuration) : list Resource :=
  flat_map render cfg.

(** The stateless workload of a release: its Deployment. *)
Definition workload (r : Release) : Deployment :=
  match release_chart r with
  | BackendChart v => backend_deployment (release_name r) v
  | FrontendChart v => frontend_deployment (release_name r) v
  end.

(** What the workload of a release depends on, by the name it uses to
    reach it: the backend on [<release>-postgres], which its init
    container probes; the frontend on the backend release named in its
    values, unless a custom URL replaces it. *)
Definition depends_on (r : Release) : list string :=
  match release_chart r with
  | BackendChart v => [postgres_name (release_name r)]
  | FrontendChart v =>
      if customUrl_set (f_backend v) then []
      else [ref_releaseName (f_backend v)]
  end.

(** The dependency edges [(dependent, dependency)] of a configuration. *)
Definition edges (cfg : Configuration) : list (string * string) :=
  flat_map (fun r => map (pair (d_name (workload r))) (depends_on r)) cfg.

(** The components a name can resolve to: the Services rendered. *)
Definition service_names (rs : list Resource) : list string :=
  flat_map (fun r => match r with
                     | RService s => [svc_name s]
                     | _ => []
                     end) rs.

(** The stateless components: the Deployments rendered. *)
Definition workload_names (cfg : Configuration) : list string :=
  map (fun r => d_name (workload r)) cfg.

(** The failures a render can report, and what a render returns.  The
    templates use no [fail] and no [required]: [helm template] on
    well-typed values always returns manifests. *)
Inductive RenderError :=
| InvalidIdentifier (name : string)
| MissingCredential (component field : string)
| CyclicDependency (cycle : list string)
| UnknownDependency (from to : string).

Inductive RenderResult :=
| Rendered (rs : list Resource)
| Failed (e : RenderError).

Definition helm_template (cfg : Configuration) : RenderResult :=
  Rendered (render_all cfg).

(** [(from, to)] is a dangling reference: a declared dependency that
    names no component of the configuration. *)
Definition dangling (cfg : Configuration) (from to : string) : Prop :=
  In (from, to) (edges cfg) /\ ~ In to (service_names (render_all cfg)).

(** [chain e l]: each element of [l] depends on the next. *)
Fixpoint chain (e : list (string * string)) (l : list string) : Prop :=
  match l with
  | a :: ((b :: _) as l') => In (a, b) e /\ chain e l'
  | _ => True
  end.

(** [cyc] is a dependency cycle among stateless components: distinct
    workloads, each depending on the next and the last on the first. *)
Definition cycle (cfg : Configuration) (cyc : list string) : Prop :=
  2 <= List.length cyc /\
  NoDup cyc /\
  incl cyc (workload_names cfg) /\
  chain (edges cfg) cyc /\
  In (last cyc EmptyString, hd EmptyString cyc) (edges cfg).

(** [l'] is a rotation of [l]. *)
Definition rotation (l l' : list string) : Prop :=
  exists a b : list string, l = (a ++ b)%list /\ l' = (b ++ a)%list.

(** A workload is wired to a dependency when an init container of it
    probes that name, or its BACKEND_URL is an http URL on that name. *)
Definition gated_on (d : Deployment) (to : string) : Prop :=
  exists ic, In ic (d_initContainers d) /\ nc_host (ic_script ic) = to.

Definition wired_to (d : Deployment) (to : string) : Prop :=
  gated_on d to \/
  exists port,
    In (mkEnvVar "BACKEND_URL" (Value ("http://" ++ to ++ ":" ++ port)))
       (d_env d).

End Render.

(** ** The identifiers of a backend release *)

Module Identifiers.
Import Sprig Helpers.

Inductive Component := Stateless | Stateful.

Inductive Role := ServiceRole | SecretRole | StorageClaimRole.

(** The identifier the charts give to a component in a role: the
    workload's Service is named by [fullname]; PostgreSQL has its Service,
    its Secret and its storage claim.  The workload has neither a Secret
    nor a claim. *)
Definition resolve (chartName : string) (n : Naming) (releaseName : string)
    (c : Component) (r : Role) : option string :=
  match c, r with
  | Stateless, ServiceRole => Some (fullname chartName n releaseName)
  | Stateful, ServiceRole => Some (postgres_name releaseName)
  | Stateful, SecretRole => Some (postgres_secret_name releaseName)
  | Stateful, StorageClaimRole => Some (storage_claim_name releaseName)
  | Stateless, _ => None
  end.

(** The syntax of a name: an RFC 1123 label has 1 to 63 characters, all
    lower-case letters, digits or hyphens, and starts and ends with a
    letter or a digit. *)
Definition lower_alnum (c : ascii) : bool :=
  let n := nat_of_ascii c in
  (Nat.leb 97 n && Nat.leb n 122) || (Nat.leb 48 n && Nat.leb n 57).

Definition label_char (c : ascii) : bool :=
  lower_alnum c || Ascii.eqb c "-".

Fixpoint all_chars (p : ascii -> bool) (s : string) : bool :=
  match s with
  | EmptyString => true
  | String c s' => p c && all_chars p s'
  end.

Definition first_char (s : string) : option ascii :=
  match s with
  | EmptyString => None
  | String c _ => Some c
  end.

Fixpoint last_char (s : string) : option ascii :=
  match s with
  | EmptyString => None
  | String c EmptyString => Some c
  | String _ s' => last_char s'
  end.

Definition holds (p : ascii -> bool) (o : option ascii) : bool :=
  match o with
  | Some c => p c
  | None => false
  end.

Definition rfc1123_label (s : string) : bool :=
  Nat.leb (String.length s) 63 && all_chars label_char s &&
  holds lower_alnum (first_char s) && holds lower_alnum (last_char s).

Definition has_suffix (suf s : string) : Prop := exists p, s = p ++ suf.

(** What [fullname] is cut from: the override, the release name, or
    [<release>-<name>]. *)
Definition fullname_source (c : string) (n : Naming) (R : string) : string :=
  if truthy (fullnameOverride n) then fullnameOverride n
  else if contains (default c (nameOverride n)) R then R
  else R ++ "-" ++ default c (nameOverride n).

End Identifiers.


(** ** Reading the rendered resources *)

Module Inspect.

(** The value stored under a key of a Secret. *)
Fixpoint assoc (key : string) (l : list (string * string)) : option string :=
  match l with
  | [] => None
  | (k, v) :: l' => if String.eqb k key then Some v else assoc key l'
  end.

Definition secret_field (s : Secret) (key : string) : option string :=
  assoc key (sec_data s).

(** A field of a credential bundle, by the key the Secret stores it
    under. *)
Definition credential (a : PostgresAuth) (key : string) : option string :=
  if String.eqb key "username" then Some (auth_username a)
  else if String.eqb key "password" then Some (auth_password a)
  else if String.eqb key "database" then Some (auth_database a)
  else None.


(** The same frontend values pointing at another backend release and
    port, the custom URL unchanged. *)
Definition with_backend (v : FrontendValues) (releaseName : string) (port : Q)
  : FrontendValues :=
  mkFrontendValues (f_naming v) (f_replicaCount v) (f_autoscaling_enabled v)
    (f_image_repository v) (f_image_tag v) (f_service_type v)
    (f_service_port v) (f_env v)
    (mkBackendRef releaseName port (ref_customUrl (f_backend v))).

(** Two lists hold the same mapping: the same entries, keys distinct, in
    any order. *)
Definition same_map (m1 m2 : EnvMap) : Prop :=
  NoDup (map fst m1) /\ Permutation m1 m2.

(** Two releases are the same configuration: the same release name, chart
    and values, the [env] mappings equal as mappings. *)
Inductive same_release : Release -> Release -> Prop :=
| same_backend (R : string) (n : Helpers.Naming) (rc : nat)
    (repo tag ty : string) (port : Z) (e1 e2 : EnvMap) (pg : PostgresValues) :
    same_map e1 e2 ->
    same_release
      (mkRelease R (BackendChart (mkBackendValues n rc repo tag ty port e1 pg)))
      (mkRelease R (BackendChart (mkBackendValues n rc repo tag ty port e2 pg)))
| same_frontend (R : string) (n : Helpers.Naming) (rc : nat) (hpa : bool)
    (repo tag ty : string) (port : Z) (e1 e2 : EnvMap) (b : BackendRef) :
    same_map e1 e2 ->
    same_release
      (mkRelease R
         (FrontendChart (mkFrontendValues n rc hpa repo tag ty port e1 b)))
      (mkRelease R
         (FrontendChart (mkFrontendValues n rc hpa repo tag ty port e2 b))).

End Inspect.


(** ** Configurations used as test inputs *)

(** The backend values with the bundled PostgreSQL switched off, as the
    chart README does for an external database. *)
Definition external_db_values : BackendValues :=
  mkBackendValues Helpers.default_naming 1 "backend-app" "latest"
    "ClusterIP" 8000%Z [("PYTHONUNBUFFERED", "1")]
    (mkPostgresValues false "postgres" "15-alpine"
       (mkPostgresAuth "appdb" "appuser" "supersecret") "1Gi").

(** The full stack of the Makefile: the backend release, then the
    frontend release pointed at it. *)
Definition full_stack : Configuration :=
  [ mkRelease "my-backend" (BackendChart default_backend_values);
    mkRelease "my-frontend" (FrontendChart default_frontend_values) ].

(** The frontend release alone, its backend release not installed. *)
Definition frontend_alone : Configuration :=
  [ mkRelease "my-frontend" (FrontendChart default_frontend_values) ].

(** The frontend values pointed at a given release. *)
Definition frontend_pointing_at (releaseName : string) : FrontendValues :=
  Inspect.with_backend default_frontend_values releaseName (Qmake 8000 1).

(** Two frontend releases, each configured with the other as its
    backend. *)
Definition mutual_pair : Configuration :=
  [ mkRelease "a-frontend" (FrontendChart (frontend_pointing_at "b-frontend"));
    mkRelease "b-frontend" (FrontendChart (frontend_pointing_at "a-frontend")) ].


(** ** Labels and selectors

    The label helpers of [_helpers.tpl] and the selectors the templates
    write.  A set of labels is the list of its [key: value] lines. *)

Module Labels.
Import Sprig Helpers.

(** [replace old new s] for a one-character [old], as the chart helper
    uses it on the plus sign: every occurrence is replaced. *)
Fixpoint replace (old : ascii) (new : string) (s : string) : string :=
  match s with
  | EmptyString => EmptyString
  | String c s' =>
      if Ascii.eqb c old then new ++ replace old new s'
      else String c (replace old new s')
  end.

(** The helper [frontend.chart]: chart name and version, the plus sign of
    a version replaced, truncated like the names. *)
Definition chart_label (chartName chartVersion : string) : string :=
  trimSuffix "-"
    (trunc 63 (replace "+"%char "_" (printf_s_dash_s chartName chartVersion))).

Definition LabelSet := list (string * string).

(** The helper [frontend.selectorLabels]. *)
Definition selectorLabels (chartName : string) (n : Naming)
    (releaseName : string) : LabelSet :=
  [ ("app.kubernetes.io/name", name chartName n);
    ("app.kubernetes.io/instance", releaseName) ].

(** The helper [frontend.labels]; [.Release.Service] is passed as
    [service]. *)
Definition labels (chartName chartVersion appVersion service : string)
    (n : Naming) (releaseName : string) : LabelSet :=
  ([("helm.sh/chart", chart_label chartName chartVersion)] ++
   selectorLabels chartName n releaseName ++
   (if truthy appVersion
    then [("app.kubernetes.io/version", appVersion)] else []) ++
   [("app.kubernetes.io/managed-by", service)])%list.

(** The labels of the pod template of a Deployment: the chart labels,
    then [.Values.podLabels] (the frontend chart; the backend template
    writes the chart labels only). *)
Definition pod_labels (chartName chartVersion appVersion service : string)
    (n : Naming) (releaseName : string) (podLabels : LabelSet) : LabelSet :=
  (labels chartName chartVersion appVersion service n releaseName ++
   podLabels)%list.

(** The selector written by [postgres-statefulset.yaml] (matchLabels) and
    [postgres-service.yaml], and the labels of the PostgreSQL pod. *)
Definition postgres_selector (chartName : string) (n : Naming)
    (releaseName : string) : LabelSet :=
  [ ("app.kubernetes.io/name", name chartName n ++ "-postgres");
    ("app.kubernetes.io/instance", releaseName) ].

Definition postgres_pod_labels (chartName : string) (n : Naming)
    (releaseName : string) : LabelSet :=
  [ ("app.kubernetes.io/name", name chartName n ++ "-postgres");
    ("app.kubernetes.io/instance", releaseName);
    ("app.kubernetes.io/component", "database") ].

(** The value of a label. *)
Fixpoint label (key : string) (l : LabelSet) : option string :=
  match l with
  | [] => None
  | (k, v) :: l' => if String.eqb k key then Some v else label key l'
  end.

(** A selector selects a pod when the pod carries every label of the
    selector with the same value. *)
Definition selects (selector podLabels : LabelSet) : bool :=
  forallb (fun kv => match label (fst kv) podLabels with
                     | Some v => String.eqb v (snd kv)
                     | None => false
                     end) selector.

(** No plus sign: a label value may not hold one. *)
Definition not_plus (c : ascii) : bool := negb (Ascii.eqb c "+").

(** The keys the chart itself writes on a pod. *)
Definition chart_keys : list string :=
  [ "helm.sh/chart"; "app.kubernetes.io/name"; "app.kubernetes.io/instance";
    "app.kubernetes.io/version"; "app.kubernetes.io/managed-by" ].

End Labels.


(** ** The frontend at run time *)

Module Frontend.
Import Sprig.


(** [items-manager.tsx] sends [description || null] in the body of a
    create or update request: an empty description is sent as null. *)
Definition payload_description (description : string) : option string :=
  if truthy description then Some description else None.

(** [item-dialog.tsx] fills its description field with
    [item.description || '']. *)
Definition dialog_description (description : option string) : string :=
  match description with
  | Some d => if truthy d then d else EmptyString
  | None => EmptyString
  end.

End Frontend.

(** ** Pods at run time

    A container's [env] entry is a literal, or a reference the kubelet
    resolves when the pod starts: the Secret of that name in the
    namespace, the field of that key, base64-decoded. *)

Module Runtime.

Fixpoint find_secret (name : string) (rs : list Resource) : option Secret :=
  match rs with
  | [] => None
  | RSecret s :: rs' =>
      if String.eqb (sec_name s) name then Some s else find_secret name rs'
  | _ :: rs' => find_secret name rs'
  end.

Definition env_value (rs : list Resource) (e : EnvVar) : option string :=
  match env_source e with
  | Value v => Some v
  | SecretKeyRef secret key =>
      match find_secret secret rs with
      | Some s =>
          match Inspect.secret_field s key with
          | Some stored => Base64.b64dec stored
          | None => None
          end
      | None => None
      end
  end.

(** The [env] entries of every workload of a resource set. *)
Definition workload_envs (rs : list Resource) : list EnvVar :=
  flat_map (fun r => match r with
                     | RDeployment d => d_env d
                     | RStatefulSet s => ss_env s
                     | _ => []
                     end) rs.


(** The claims a StatefulSet gets: one per replica and claim template,
    named template-statefulset-ordinal. *)
Definition decimal (n : nat) : string :=
  NilEmpty.string_of_uint (Nat.to_uint n).

Definition claim_names (s : StatefulSet) : list string :=
  map (fun i => ss_claimTemplate s ++ "-" ++ ss_name s ++ "-" ++ decimal i)
      (seq 0 (ss_replicas s)).

End Runtime.

(** ** The Makefile *)

Module Makefile.
Import Sprig.

(** The variables of the Makefile, each set with [?=]: the default
    applies only when the variable is not defined at all. *)
Record Vars := mkVars {
  RELEASE_NAME : string;
  FRONTEND_RELEASE : string;
  NAMESPACE : string
}.

Definition default_vars : Vars := mkVars "my-backend" "my-frontend" "default".

(** The shell splits a command line into words at blanks. *)
Definition is_blank (c : ascii) : bool :=
  Ascii.eqb c " " || Ascii.eqb c (ascii_of_nat 9) ||
  Ascii.eqb c (ascii_of_nat 10).

Fixpoint words_from (cur : string) (s : string) : list string :=
  match s with
  | EmptyString => if truthy cur then [cur] else []
  | String c s' =>
      if is_blank c then
        if truthy cur then cur :: words_from EmptyString s'
        else words_from EmptyString s'
      else words_from (cur ++ String c EmptyString) s'
  end.

Definition words (s : string) : list string := words_from EmptyString s.

(** What a variable contributes to a line: itself as a word, or nothing
    when it is empty. *)
Definition given (s : string) : list string :=
  if truthy s then [s] else [].

(** [helm-local-frontend] runs
    [./deploy-local.sh $(FRONTEND_RELEASE) $(NAMESPACE) $(RELEASE_NAME)]:
    the variables are pasted into the line, which the shell then splits. *)
Definition helm_local_frontend_args (v : Vars) : list string :=
  words (FRONTEND_RELEASE v ++ " " ++ NAMESPACE v ++ " " ++ RELEASE_NAME v).

(** [helm-local-backend] runs [./deploy-local.sh $(RELEASE_NAME)]. *)
Definition helm_local_backend_args (v : Vars) : list string :=
  words (RELEASE_NAME v).

(** [helm-destroy-backend] deletes the claim
    [postgres-data-$(RELEASE_NAME)-postgres-0]. *)
Definition destroy_backend_pvc (v : Vars) : string :=
  "postgres-data-" ++ RELEASE_NAME v ++ "-postgres-0".

(** [pf-postgres] forwards [svc/$(RELEASE_NAME)-postgres 5432:5432]. *)
Definition pf_postgres_service (v : Vars) : string :=
  RELEASE_NAME v ++ "-postgres".

Definition pf_postgres_port : Z := 5432%Z.

(** [pf-backend] forwards [svc/$(RELEASE_NAME)], [pf-frontend]
    [svc/$(FRONTEND_RELEASE)]. *)
Definition pf_backend_service (v : Vars) : string := RELEASE_NAME v.
Definition pf_frontend_service (v : Vars) : string := FRONTEND_RELEASE v.

End Makefile.

(** ** The deploy scripts *)

Module DeployScript.
Import Sprig.

(** [${N:-default}]: the N-th argument, the default when it is missing or
    empty. *)
Definition arg_or (args : list string) (i : nat) (dflt : string) : string :=
  match nth_error args i with
  | Some a => if truthy a then a else dflt
  | None => dflt
  end.

Record Params := mkParams {
  p_release : string;
  p_namespace : string;
  p_backend : string
}.

(** The first lines of the frontend script. *)
Definition frontend_params (args : list string) : Params :=
  mkParams (arg_or args 0 "my-frontend") (arg_or args 1 "default")
    (arg_or args 2 "my-backend").

(** The first lines of the backend script, which has no third
    parameter. *)
Definition backend_params (args : list string) : Params :=
  mkParams (arg_or args 0 "my-backend") (arg_or args 1 "default")
    EmptyString.

(** [grep -q $RELEASE_NAME] reads the release name as a basic regular
    expression.  In a name made of lowercase letters, digits, hyphens and
    dots that starts with a letter or a digit (the names Helm accepts are
    of this kind) every character stands for itself except the dot, which
    stands for any one character.  Other texts (an operator of the
    expression syntax, a blank at which the shell splits the unquoted
    variable, a leading hyphen that grep reads as an option) are outside
    this model: they have no pattern here. *)
Inductive PatChar :=
| Lit (c : ascii)
| Any.

Definition pattern_char (c : ascii) : option PatChar :=
  if Identifiers.label_char c then Some (Lit c)
  else if Ascii.eqb c "." then Some Any
  else None.

Fixpoint pattern_chars (s : string) : option (list PatChar) :=
  match s with
  | EmptyString => Some []
  | String c s' =>
      match pattern_char c, pattern_chars s' with
      | Some pc, Some l => Some (pc :: l)
      | _, _ => None
      end
  end.

Definition pattern_of (s : string) : option (list PatChar) :=
  match s with
  | EmptyString => None
  | String c _ => if Identifiers.lower_alnum c then pattern_chars s else None
  end.

(** Does the pattern match at the start of the text. *)
Fixpoint match_here (pat : list PatChar) (s : string) : bool :=
  match pat, s with
  | [], _ => true
  | Lit c :: pat', String x s' => Ascii.eqb c x && match_here pat' s'
  | Any :: pat', String _ s' => match_here pat' s'
  | _ :: _, EmptyString => false
  end.

(** Does it match somewhere in the line. *)
Fixpoint match_line (pat : list PatChar) (s : string) : bool :=
  match_here pat s ||
  match s with
  | EmptyString => false
  | String _ s' => match_line pat s'
  end.

(** [grep -q]: does the pattern match in any line. *)
Definition grep_q (pat : list PatChar) (lines : list string) : bool :=
  existsb (match_line pat) lines.

(** A text the pattern of a name matches: the name itself, with any
    character in the place of each dot. *)
Inductive instance : string -> string -> Prop :=
| instance_nil : instance EmptyString EmptyString
| instance_same (c : ascii) (n m : string) :
    instance n m -> instance (String c n) (String c m)
| instance_dot (x : ascii) (n m : string) :
    instance n m -> instance (String "." n) (String x m).

(** What the script asks of helm. *)
Inductive HelmCommand :=
| Install (release namespace : string) (sets : list (string * string))
| Upgrade (release namespace : string) (sets : list (string * string)).

(** The test [helm list -n $NAMESPACE | grep -q $RELEASE_NAME].  The
    listing of helm is a parameter: its lines for a namespace. *)
Definition release_listed (helm_list : string -> list string) (p : Params)
  : option bool :=
  match pattern_of (p_release p) with
  | Some pat => Some (grep_q pat (helm_list (p_namespace p)))
  | None => None
  end.

(** [if helm list -n $NAMESPACE | grep -q $RELEASE_NAME; then helm upgrade
    ...; else helm install ...; fi]. *)
Definition frontend_command (helm_list : string -> list string)
    (args : list string) : option HelmCommand :=
  let p := frontend_params args in
  match release_listed helm_list p with
  | Some true =>
      Some (Upgrade (p_release p) (p_namespace p)
              [("backend.releaseName", p_backend p)])
  | Some false =>
      Some (Install (p_release p) (p_namespace p)
              [("backend.releaseName", p_backend p)])
  | None => None
  end.

Definition backend_command (helm_list : string -> list string)
    (args : list string) : option HelmCommand :=
  let p := backend_params args in
  match release_listed helm_list p with
  | Some true => Some (Upgrade (p_release p) (p_namespace p) [])
  | Some false => Some (Install (p_release p) (p_namespace p) [])
  | None => None
  end.

End DeployScript.


(** ** The items page

    The state of [ItemsManager] and what each handler does to it.  A
    handler runs in pieces, one before each [await] and one after the
    answer; each piece is an event, and its state updates take effect
    together.  The answers of the server are part of the events. *)

Module ItemsPage.

Record Item := mkItem {
  item_id : Z;
  item_title : string;
  item_description : option string
}.

Record State := mkState {
  items : list Item;
  loading : bool;
  error : option string;
  isDialogOpen : bool;
  editingItem : option Item;
  title : string;
  description : string;
  submitting : bool
}.

(** The initial values of the [useState] calls. *)
Definition initial : State :=
  mkState [] true None false None EmptyString EmptyString false.

Inductive Event :=
| FetchStarted
| FetchSucceeded (data : list Item)
| FetchFailed (message : string)
| TitleTyped (text : string)
| DescriptionTyped (text : string)
| CreateSubmitted
| CreateSucceeded
| CreateSettled
| CreateFailed (message : string)
| EditClicked (item : Item)
| UpdateSucceeded
| UpdateFailed (message : string)
| DeleteSucceeded
| DeleteFailed (message : string)
| DialogOpenChanged (open : bool).

(** The start of [fetchItems]: [setLoading(true); setError(null)]. *)
Definition start_fetch (s : State) : State :=
  mkState (items s) true None (isDialogOpen s) (editingItem s) (title s)
    (description s) (submitting s).

(** [blank t] stands for [!t.trim()]. *)
Definition step (blank : string -> bool) (s : State) (e : Event) : State :=
  match e with
  | FetchStarted => start_fetch s
  | FetchSucceeded data =>
      mkState data false (error s) (isDialogOpen s) (editingItem s)
        (title s) (description s) (submitting s)
  | FetchFailed m =>
      mkState (items s) false (Some m) (isDialogOpen s) (editingItem s)
        (title s) (description s) (submitting s)
  | TitleTyped t =>
      mkState (items s) (loading s) (error s) (isDialogOpen s)
        (editingItem s) t (description s) (submitting s)
  | DescriptionTyped d =>
      mkState (items s) (loading s) (error s) (isDialogOpen s)
        (editingItem s) (title s) d (submitting s)
  | CreateSubmitted =>
      if blank (title s) then s
      else mkState (items s) (loading s) (error s) (isDialogOpen s)
             (editingItem s) (title s) (description s) true
  | CreateSucceeded =>
      start_fetch
        (mkState (items s) (loading s) (error s) (isDialogOpen s)
           (editingItem s) EmptyString EmptyString (submitting s))
  | CreateSettled =>
      mkState (items s) (loading s) (error s) (isDialogOpen s)
        (editingItem s) (title s) (description s) false
  | CreateFailed m =>
      mkState (items s) (loading s) (Some m) (isDialogOpen s)
        (editingItem s) (title s) (description s) false
  | EditClicked item =>
      mkState (items s) (loading s) (error s) true (Some item) (title s)
        (description s) (submitting s)
  | UpdateSucceeded =>
      start_fetch
        (mkState (items s) (loading s) (error s) false None (title s)
           (description s) (submitting s))
  | UpdateFailed m =>
      mkState (items s) (loading s) (Some m) (isDialogOpen s)
        (editingItem s) (title s) (description s) (submitting s)
  | DeleteSucceeded => start_fetch s
  | DeleteFailed m =>
      mkState (items s) (loading s) (Some m) (isDialogOpen s)
        (editingItem s) (title s) (description s) (submitting s)
  | DialogOpenChanged open =>
      mkState (items s) (loading s) (error s) open
        (if open then editingItem s else None) (title s) (description s)
        (submitting s)
  end.

Definition run (blank : string -> bool) (events : list Event) : State :=
  fold_left (step blank) events initial.

(** The request of [handleUpdate]: PUT on [/api/items/<id>] with the body
    [{ title, description: description || null }]. *)
Record UpdateRequest := mkUpdateRequest {
  req_id : Z;
  req_title : string;
  req_description : option string
}.

Definition update_request (id : Z) (title description : string)
  : UpdateRequest :=
  mkUpdateRequest id title (Frontend.payload_description description).

(** [item-dialog.tsx], the effect on [item]: the fields the dialog shows,
    [item.title] and [item.description || ''], both empty without an
    item. *)
Definition dialog_fields (item : option Item) : string * string :=
  match item with
  | Some i =>
      (item_title i, Frontend.dialog_description (item_description i))
  | None => (EmptyString, EmptyString)
  end.

(** [handleSubmit] of the dialog: [if (!item || !title.trim()) return],
    then [onSave(item.id, title, description)], which is [handleUpdate].
    Nothing is sent without an item or with a blank title. *)
Definition handleSubmit (blank : string -> bool) (item : option Item)
    (title description : string) : option UpdateRequest :=
  match item with
  | None => None
  | Some i =>
      if blank title then None
      else Some (update_request (item_id i) title description)
  end.

(** Opening the dialog on an item and submitting it as it is shown. *)
Definition saved_unchanged (blank : string -> bool) (i : Item)
  : option UpdateRequest :=
  handleSubmit blank (Some i)
    (fst (dialog_fields (Some i))) (snd (dialog_fields (Some i))).

End ItemsPage.


(** ** The order of a rendered [env] *)

Module EnvOrder.

(** The order in which the range visits the entries of a map: by key,
    bytewise. *)
Definition key_le (a b : string * string) : Prop :=
  String.leb (fst a) (fst b) = true.

End EnvOrder.


(** ** The form of a Secret's data *)

Module Base64Format.

(** A character a base64 text may hold: one of the alphabet, or the
    padding character. *)
Definition symbol (c : ascii) : bool :=
  match Base64.index_of c with
  | Some _ => true
  | None => Ascii.eqb c Base64.pad
  end.

End Base64Format.


Example trunc_ex : Sprig.trunc 3 "backend" = "bac".
Proof. reflexivity. Qed.

Example trimSuffix_ex : Sprig.trimSuffix "-" "my-app-" = "my-app".
Proof. reflexivity. Qed.

Example fullname_my_backend :
  Helpers.fullname "backend" Helpers.default_naming "my-backend" = "my-backend".
Proof. reflexivity. Qed.

Example fullname_r1 :
  Helpers.fullname "frontend" Helpers.default_naming "r1" = "r1-frontend".
Proof. reflexivity. Qed.

(** The encodings the walkthrough shows for the default credentials. *)
Example b64enc_appuser : Base64.b64enc "appuser" = "YXBwdXNlcg==".
Proof. reflexivity. Qed.

Example b64enc_supersecret : Base64.b64enc "supersecret" = "c3VwZXJzZWNyZXQ=".
Proof. reflexivity. Qed.

Example b64enc_appdb : Base64.b64enc "appdb" = "YXBwZGI=".
Proof. reflexivity. Qed.

Example b64dec_appuser : Base64.b64dec "YXBwdXNlcg==" = Some "appuser".
Proof. reflexivity. Qed.

(** The rendering the troubleshooting notes and the deploy script show for
    the default releases. *)
Example db_host_my_backend :
  In (mkEnvVar "DB_HOST" (Value "my-backend-postgres"))
     (d_env (Templates.backend_deployment "my-backend" default_backend_values)).
Proof. simpl. auto. Qed.

Example backend_url_default :
  Templates.backendUrl default_frontend_values = "http://my-backend:8000".
Proof. reflexivity. Qed.

(** * Proofs *)

(** ** Strings *)

Section StringFacts.
Import Sprig.

Lemma length_append (a b : string) :
  String.length (a ++ b) = String.length a + String.length b.
Proof.
  induction a as [|c a IH]; simpl; [reflexivity | now rewrite IH].
Qed.

Lemma append_nil_r (a : string) : a ++ EmptyString = a.
Proof.
  induction a as [|c a IH]; simpl; [reflexivity | now rewrite IH].
Qed.

Lemma append_assoc (a b c : string) : (a ++ b) ++ c = a ++ (b ++ c).
Proof.
  induction a as [|x a IH]; simpl; [reflexivity | now rewrite IH].
Qed.

Lemma append_inv_head (a b c : string) : a ++ b = a ++ c -> b = c.
Proof.
  induction a as [|x a IH]; simpl; intros H; [exact H |].
  injection H as H. now apply IH.
Qed.

Lemma trunc_length_le (n : nat) (s : string) : String.length (trunc n s) <= n.
Proof.
  revert s; induction n as [|n IH]; intros [|c s]; simpl; try lia.
  specialize (IH s). lia.
Qed.

Lemma trunc_all (n : nat) (s : string) :
  String.length s <= n -> trunc n s = s.
Proof.
  revert s; induction n as [|n IH]; intros [|c s]; simpl; intros H;
    try reflexivity; try lia.
  rewrite IH; [reflexivity | lia].
Qed.

Lemma trunc_cut (n : nat) (s : string) :
  n <= String.length s -> String.length (trunc n s) = n.
Proof.
  revert s; induction n as [|n IH]; intros [|c s]; simpl; intros H;
    try reflexivity; try lia.
  rewrite IH; [reflexivity | lia].
Qed.

(** Truncation cuts from the tail: what is kept is a prefix. *)
Lemma trunc_prefix (n : nat) (s : string) : exists t, s = trunc n s ++ t.
Proof.
  revert s; induction n as [|n IH]; intros s.
  - exists s. destruct s; reflexivity.
  - destruct s as [|c s]; [now exists EmptyString |].
    destruct (IH s) as [t Ht]. exists t. simpl. now rewrite <- Ht.
Qed.

(** [trimSuffix] leaves the string alone or removes exactly the suffix. *)
Lemma trimSuffix_cases (suf s : string) :
  trimSuffix suf s = s \/ s = trimSuffix suf s ++ suf.
Proof.
  induction s as [|c s IH]; [now left |].
  cbn [trimSuffix].
  destruct (String.eqb_spec (String c s) suf) as [E|E].
  - right. exact E.
  - destruct IH as [IH|IH]; [left | right]; cbn [append]; congruence.
Qed.

Lemma trimSuffix_length_le (suf s : string) :
  String.length (trimSuffix suf s) <= String.length s.
Proof.
  destruct (trimSuffix_cases suf s) as [H|H].
  - rewrite H. lia.
  - rewrite H at 2. rewrite length_append. lia.
Qed.

(** A string whose last character is not a hyphen keeps it. *)
Lemma trimSuffix_keep (a b : string) (c : ascii) :
  c <> "-"%char ->
  trimSuffix "-" (a ++ String c b) = a ++ trimSuffix "-" (String c b).
Proof.
  intros Hc. induction a as [|x a IH]; [reflexivity |].
  cbn [append trimSuffix].
  destruct (String.eqb_spec (String x (a ++ String c b)) "-") as [E|E].
  - exfalso. injection E as _ E. destruct a; discriminate.
  - now rewrite IH.
Qed.

(** The names of the workload are never longer than 63 characters. *)
Lemma trim_trunc_length (s : string) :
  String.length (trimSuffix "-" (trunc 63 s)) <= 63.
Proof.
  pose proof (trimSuffix_length_le "-" (trunc 63 s)).
  pose proof (trunc_length_le 63 s). lia.
Qed.

Lemma trim_trunc_length_le (s : string) :
  String.length (trimSuffix "-" (trunc 63 s)) <= String.length s.
Proof.
  pose proof (trimSuffix_length_le "-" (trunc 63 s)).
  destruct (trunc_prefix 63 s) as [t Ht].
  rewrite Ht at 2. rewrite length_append. lia.
Qed.

(** What is kept is a prefix of the input. *)
Lemma trim_trunc_prefix (s : string) :
  exists t, s = trimSuffix "-" (trunc 63 s) ++ t.
Proof.
  destruct (trunc_prefix 63 s) as [t Ht].
  destruct (trimSuffix_cases "-" (trunc 63 s)) as [H|H].
  - exists t. now rewrite H.
  - exists ("-" ++ t). rewrite Ht at 1. rewrite H at 1.
    now rewrite append_assoc.
Qed.

End StringFacts.

(** ** Identifiers *)

Section IdentifierFacts.
Import Sprig Helpers Identifiers.

Lemma all_chars_append (p : ascii -> bool) (a b : string) :
  all_chars p (a ++ b) = all_chars p a && all_chars p b.
Proof.
  induction a as [|c a IH]; simpl; [reflexivity |].
  rewrite IH. now rewrite andb_assoc.
Qed.

Lemma all_chars_prefix (p : ascii -> bool) (s u t : string) :
  s = u ++ t -> all_chars p s = true -> all_chars p u = true.
Proof.
  intros -> H. rewrite all_chars_append in H.
  now apply andb_true_iff in H.
Qed.

Lemma last_char_append (p s : string) :
  s <> EmptyString -> last_char (p ++ s) = last_char s.
Proof.
  intros Hs. induction p as [|c p IH]; [reflexivity |].
  cbn [append last_char]. rewrite IH.
  destruct (p ++ s) eqn:E; [| reflexivity].
  destruct p; [simpl in E; congruence | discriminate].
Qed.

Lemma postgres_name_length (R : string) :
  String.length (postgres_name R) = String.length R + 9.
Proof. unfold postgres_name. now rewrite length_append. Qed.

Lemma postgres_secret_name_length (R : string) :
  String.length (postgres_secret_name R) = String.length R + 16.
Proof. unfold postgres_secret_name. now rewrite length_append. Qed.

Lemma storage_claim_name_length (R : string) :
  String.length (storage_claim_name R) = String.length R + 25.
Proof.
  unfold storage_claim_name, postgres_name, claim_template.
  rewrite !length_append. simpl. lia.
Qed.

(** The helper with the default naming. *)
Lemma fullname_default (c R : string) :
  fullname c default_naming R =
  if contains c R then trimSuffix "-" (trunc 63 R)
  else trimSuffix "-" (trunc 63 (R ++ "-" ++ c)).
Proof. reflexivity. Qed.

(** With the default naming, the workload's name is no longer than
    [<release>-<chart>]. *)
Lemma fullname_default_length (c R : string) :
  String.length (fullname c default_naming R) <=
  String.length R + 1 + String.length c.
Proof.
  rewrite fullname_default.
  destruct (contains c R).
  - pose proof (trim_trunc_length_le R). lia.
  - pose proof (trim_trunc_length_le (R ++ "-" ++ c)) as H.
    rewrite !length_append in H. cbn [String.length] in H. lia.
Qed.

Lemma fullname_frontend_not_postgres (R : string) :
  fullname "frontend" default_naming R <> postgres_name R.
Proof.
  rewrite fullname_default. unfold postgres_name.
  destruct (contains "frontend" R).
  - intros E. apply (f_equal String.length) in E.
    pose proof (trim_trunc_length_le R). rewrite length_append in E.
    cbn [String.length] in E. lia.
  - intros E.
    assert (HL : String.length (R ++ "-" ++ "frontend") <= 63).
    { pose proof (trim_trunc_length (R ++ "-" ++ "frontend")) as H.
      rewrite E in H. rewrite !length_append in *.
      cbn [String.length] in *. lia. }
    rewrite (trunc_all 63 _ HL) in E.
    change (R ++ "-" ++ "frontend") with (R ++ ("-fronten" ++ "d")) in E.
    rewrite <- append_assoc in E.
    rewrite trimSuffix_keep in E by discriminate.
    rewrite append_assoc in E.
    apply append_inv_head in E. discriminate.
Qed.

(** The workload's name differs from every PostgreSQL identifier of the
    release when the naming is left at its default. *)
Lemma fullname_default_distinct (c R : string) :
  c = "backend" \/ c = "frontend" ->
  fullname c default_naming R <> postgres_name R /\
  fullname c default_naming R <> postgres_secret_name R /\
  fullname c default_naming R <> storage_claim_name R.
Proof.
  intros Hc.
  pose proof (fullname_default_length c R) as HL.
  pose proof (postgres_name_length R) as H1.
  pose proof (postgres_secret_name_length R) as H2.
  pose proof (storage_claim_name_length R) as H3.
  assert (Hlen : String.length c <= 8) by (destruct Hc; subst c; simpl; lia).
  repeat split.
  - destruct Hc; subst c.
    + intros E. rewrite E in HL. simpl in HL. lia.
    + apply fullname_frontend_not_postgres.
  - intros E. rewrite E in HL. lia.
  - intros E. rewrite E in HL. lia.
Qed.

Lemma postgres_identifiers_distinct (R : string) :
  postgres_name R <> postgres_secret_name R /\
  postgres_name R <> storage_claim_name R /\
  postgres_secret_name R <> storage_claim_name R.
Proof.
  pose proof (postgres_name_length R) as H1.
  pose proof (postgres_secret_name_length R) as H2.
  pose proof (storage_claim_name_length R) as H3.
  repeat split; intros E; rewrite E in *; lia.
Qed.

(** The abridged helper of the walkthrough gives distinct names too. *)
Lemma fullname_abridged_distinct (R : string) :
  fullname_abridged "backend" default_naming R <> postgres_name R /\
  fullname_abridged "backend" default_naming R <> postgres_secret_name R /\
  fullname_abridged "backend" default_naming R <> storage_claim_name R.
Proof.
  change (fullname_abridged "backend" default_naming R)
    with (R ++ "-backend").
  repeat split; intros E.
  - apply append_inv_head in E. discriminate.
  - apply append_inv_head in E. discriminate.
  - apply (f_equal String.length) in E.
    rewrite storage_claim_name_length, length_append in E.
    cbn [String.length] in E. lia.
Qed.

(** C5, as amended.  With the naming of the chart left at its default (no
    nameOverride, no fullnameOverride), for every release name the four
    identifiers of the release, the workload's Service, the PostgreSQL
    Service, its Secret and its storage claim, are pairwise distinct:
    two (component, role) pairs that resolve to the same string are the
    same pair. *)
Theorem C5_resolve_injective_default
    (c R : string) (c1 c2 : Component) (r1 r2 : Role) (s : string) :
  c = "backend" \/ c = "frontend" ->
  resolve c default_naming R c1 r1 = Some s ->
  resolve c default_naming R c2 r2 = Some s ->
  (c1, r1) = (c2, r2).
Proof.
  intros Hc E1 E2.
  destruct (fullname_default_distinct c R Hc) as (A1 & A2 & A3).
  destruct (postgres_identifiers_distinct R) as (B1 & B2 & B3).
  destruct c1, r1; cbn [resolve] in E1; try discriminate;
  destruct c2, r2; cbn [resolve] in E2; try discriminate;
  try reflexivity; exfalso; congruence.
Qed.

Lemma C5_resolve_injective_default_witness :
  ("backend" = "backend" \/ "backend" = "frontend") /\
  resolve "backend" default_naming "my-backend" Stateless ServiceRole
    = Some "my-backend" /\
  (Stateless, ServiceRole) = (Stateless, ServiceRole).
Proof.
  split; [left; reflexivity |]. split; [reflexivity |].
  apply (C5_resolve_injective_default "backend" "my-backend"
           Stateless Stateless ServiceRole ServiceRole "my-backend").
  - left; reflexivity.
  - reflexivity.
  - reflexivity.
Defined.

(** C5, the claim as stated fails.  With [fullnameOverride: r1-postgres]
    the workload of release [r1] gets the Service name [r1-postgres],
    which is the name of the PostgreSQL Service of the same release: two
    distinct pairs resolve to one string, and the release renders two
    Services under one name. *)
Lemma C5_collision_counterexample :
  let n := mkNaming EmptyString "r1-postgres" in
  resolve "backend" n "r1" Stateless ServiceRole = Some "r1-postgres" /\
  resolve "backend" n "r1" Stateful ServiceRole = Some "r1-postgres" /\
  (Stateless, ServiceRole) <> (Stateful, ServiceRole).
Proof.
  repeat split; try reflexivity. discriminate.
Qed.

(** The abridged helper of the walkthrough passes the override through in
    the same way. *)
Lemma fullnameOverride_collides_abridged :
  fullname_abridged "backend" (mkNaming EmptyString "r1-postgres") "r1"
  = postgres_name "r1".
Proof. reflexivity. Qed.

(** A component name can collide as well: [nameOverride: postgres-secret]
    gives the workload the name of the Secret, and [nameOverride: postgres]
    the name of the PostgreSQL Service. *)
Lemma nameOverride_collides :
  fullname "backend" (mkNaming "postgres-secret" EmptyString) "r1"
  = postgres_secret_name "r1" /\
  fullname "backend" (mkNaming "postgres" EmptyString) "r1"
  = postgres_name "r1".
Proof. split; reflexivity. Qed.

Lemma fullname_from_source (c : string) (n : Naming) (R : string) :
  fullname c n R = trimSuffix "-" (trunc 63 (fullname_source c n R)).
Proof.
  unfold fullname, fullname_source, printf_s_dash_s.
  destruct (truthy (fullnameOverride n)); [reflexivity |].
  destruct (contains (default c (nameOverride n)) R); reflexivity.
Qed.

(** What holds of the identifiers for every release name and component
    name: the workload's name is at most 63 characters long and is a
    prefix of what it is cut from (the override, the release name, or
    release-name, truncated from the tail, less one trailing hyphen), so
    it has only label characters when its inputs have; the PostgreSQL
    identifiers are the release name followed by the whole suffix, never
    truncated, and so are within 63 characters exactly when the release
    name has at most 54 (Service) or 47 (Secret) characters. *)
Lemma identifier_bounds (c : string) (n : Naming) (R : string) :
  String.length (fullname c n R) <= 63 /\
  (exists t, fullname_source c n R = fullname c n R ++ t) /\
  (all_chars label_char (fullname_source c n R) = true ->
   all_chars label_char (fullname c n R) = true) /\
  has_suffix "-postgres" (postgres_name R) /\
  has_suffix "-postgres-secret" (postgres_secret_name R) /\
  (String.length (postgres_name R) <= 63 <-> String.length R <= 54) /\
  (String.length (postgres_secret_name R) <= 63 <-> String.length R <= 47) /\
  (all_chars label_char R = true ->
   all_chars label_char (postgres_name R) = true /\
   all_chars label_char (postgres_secret_name R) = true).
Proof.
  rewrite fullname_from_source.
  destruct (trim_trunc_prefix (fullname_source c n R)) as [t Ht].
  split; [apply trim_trunc_length |].
  split; [now exists t |].
  split; [intros H; now apply (all_chars_prefix _ _ _ _ Ht) |].
  split; [now exists R |].
  split; [now exists R |].
  rewrite postgres_name_length, postgres_secret_name_length.
  split; [lia |]. split; [lia |].
  intros H. unfold postgres_name, postgres_secret_name.
  rewrite !all_chars_append, H. split; reflexivity.
Qed.

(** C4, a defect of the code.  The claim asks that every derived
    identifier be an RFC 1123 name within the length bound.  The helper
    [fullname] works toward that, cutting at 63 characters and trimming a
    trailing hyphen, but it trims one hyphen only; and the PostgreSQL
    templates build their names inline, without the cut the helper makes.
    For the release name of 50 letters a, itself a valid label, and the
    component name [bbbbbbbbbb--c], a valid label too, the frontend
    workload's name is cut between the two hyphens and comes out ending
    in a hyphen, which is no RFC 1123 name; and in a backend release of
    that name the Secret gets a name of 66 characters and the storage
    claim one of 75, where the workload's name next to them is held to
    63. *)
Theorem C4_identifier_defects :
  let R := "aaaaaaaaaaaaaaaaaaaaaaaaaaaaaaaaaaaaaaaaaaaaaaaaaa" in
  let n := mkNaming "bbbbbbbbbb--c" EmptyString in
  rfc1123_label R = true /\
  rfc1123_label (nameOverride n) = true /\
  fullname "frontend" n R = R ++ "-bbbbbbbbbb-" /\
  last_char (fullname "frontend" n R) = Some "-"%char /\
  rfc1123_label (fullname "frontend" n R) = false /\
  fullname "backend" n R = fullname "frontend" n R /\
  String.length (postgres_secret_name R) = 66 /\
  rfc1123_label (postgres_secret_name R) = false /\
  String.length (storage_claim_name R) = 75 /\
  String.length (fullname "backend" default_naming R) = 58 /\
  rfc1123_label (fullname "backend" default_naming R) = true.
Proof.
  cbv zeta. repeat split; reflexivity.
Qed.

End IdentifierFacts.

(** ** Base64 *)

Section Base64Facts.
Import Base64.

Local Ltac div_mod_lia := zify; Z.div_mod_to_equations; lia.

(** On the 64 values, [index_of] inverts [char_of], and no character of
    the alphabet is the padding character. *)
Lemma index_of_char_of (i : nat) :
  i < 64 -> index_of (char_of i) = Some i /\ Ascii.eqb (char_of i) pad = false.
Proof.
  intros Hi.
  assert (H : forallb
                (fun i => match index_of (char_of i) with
                          | Some j => Nat.eqb j i &&
                                      negb (Ascii.eqb (char_of i) pad)
                          | None => false
                          end) (seq 0 64) = true) by (vm_compute; reflexivity).
  rewrite forallb_forall in H.
  specialize (H i). rewrite in_seq in H. specialize (H ltac:(lia)).
  destruct (index_of (char_of i)) as [j|]; [| discriminate].
  apply andb_true_iff in H as [H1 H2].
  apply Nat.eqb_eq in H1. apply negb_true_iff in H2. now subst j.
Qed.

(** A group of four characters without padding decodes to three bytes. *)
Lemma b64dec_full_group (i1 i2 i3 i4 : nat) (rest : string) :
  i1 < 64 -> i2 < 64 -> i3 < 64 -> i4 < 64 ->
  b64dec (String (char_of i1) (String (char_of i2)
            (String (char_of i3) (String (char_of i4) rest)))) =
  match b64dec rest with
  | Some tail =>
      Some (String (ascii_of_nat (i1 * 4 + i2 / 16))
              (String (ascii_of_nat (i2 mod 16 * 16 + i3 / 4))
                 (String (ascii_of_nat (i3 mod 4 * 64 + i4)) tail)))
  | None => None
  end.
Proof.
  intros H1 H2 H3 H4.
  destruct (index_of_char_of i1 H1) as [E1 _].
  destruct (index_of_char_of i2 H2) as [E2 _].
  destruct (index_of_char_of i3 H3) as [E3 P3].
  destruct (index_of_char_of i4 H4) as [E4 P4].
  cbn [b64dec]. rewrite E1, E2, P3, E3, P4, E4. reflexivity.
Qed.

Lemma b64dec_two_bytes (i1 i2 i3 : nat) :
  i1 < 64 -> i2 < 64 -> i3 < 64 ->
  b64dec (String (char_of i1) (String (char_of i2)
            (String (char_of i3) (String pad EmptyString)))) =
  Some (String (ascii_of_nat (i1 * 4 + i2 / 16))
          (String (ascii_of_nat (i2 mod 16 * 16 + i3 / 4)) EmptyString)).
Proof.
  intros H1 H2 H3.
  destruct (index_of_char_of i1 H1) as [E1 _].
  destruct (index_of_char_of i2 H2) as [E2 _].
  destruct (index_of_char_of i3 H3) as [E3 P3].
  cbn [b64dec]. rewrite E1, E2, P3, E3. reflexivity.
Qed.

Lemma b64dec_one_byte (i1 i2 : nat) :
  i1 < 64 -> i2 < 64 ->
  b64dec (String (char_of i1) (String (char_of i2)
            (String pad (String pad EmptyString)))) =
  Some (String (ascii_of_nat (i1 * 4 + i2 / 16)) EmptyString).
Proof.
  intros H1 H2.
  destruct (index_of_char_of i1 H1) as [E1 _].
  destruct (index_of_char_of i2 H2) as [E2 _].
  cbn [b64dec]. rewrite E1, E2. reflexivity.
Qed.

(** Decoding inverts encoding, on every byte string. *)
Lemma b64dec_b64enc_3 (s : string) :
  b64dec (b64enc s) = Some s /\
  (forall a, b64dec (b64enc (String a s)) = Some (String a s)) /\
  (forall a b, b64dec (b64enc (String a (String b s)))
               = Some (String a (String b s))).
Proof.
  induction s as [|c s (IH0 & IH1 & IH2)].
  - split; [reflexivity |]. split.
    + intros a. pose proof (nat_ascii_bounded a) as Ha.
      cbn [b64enc]. rewrite b64dec_one_byte by div_mod_lia.
      replace (_ + _) with (nat_of_ascii a) by div_mod_lia.
      now rewrite ascii_nat_embedding.
    + intros a b. pose proof (nat_ascii_bounded a) as Ha.
      pose proof (nat_ascii_bounded b) as Hb.
      cbn [b64enc]. rewrite b64dec_two_bytes by div_mod_lia.
      replace (nat_of_ascii a / 4 * 4 + _) with (nat_of_ascii a)
        by div_mod_lia.
      replace (_ mod 16 * 16 + _) with (nat_of_ascii b) by div_mod_lia.
      now rewrite !ascii_nat_embedding.
  - split; [apply IH1 |]. split; [intros a; apply IH2 |].
    intros a b. pose proof (nat_ascii_bounded a) as Ha.
    pose proof (nat_ascii_bounded b) as Hb.
    pose proof (nat_ascii_bounded c) as Hc.
    cbn [b64enc]. rewrite b64dec_full_group by div_mod_lia.
    rewrite IH0.
    replace (nat_of_ascii a / 4 * 4 + _) with (nat_of_ascii a)
      by div_mod_lia.
    replace (_ mod 16 * 16 + _) with (nat_of_ascii b) by div_mod_lia.
    replace (_ mod 4 * 64 + _) with (nat_of_ascii c) by div_mod_lia.
    now rewrite !ascii_nat_embedding.
Qed.

Lemma b64dec_b64enc (s : string) : b64dec (b64enc s) = Some s.
Proof. apply b64dec_b64enc_3. Qed.

End Base64Facts.

(** ** Ranging over a map *)

Section RangeFacts.
Import Templates Inspect.

Lemma leb_trans (a b c : string) :
  String.leb a b = true -> String.leb b c = true -> String.leb a c = true.
Proof.
  unfold String.leb.
  destruct (String.compare a b) eqn:Eab; try discriminate;
  destruct (String.compare b c) eqn:Ebc; try discriminate; intros _ _.
  - apply OrderedTypeEx.String_as_OT.cmp_eq in Eab. subst b. now rewrite Ebc.
  - apply OrderedTypeEx.String_as_OT.cmp_eq in Eab. subst b. now rewrite Ebc.
  - apply OrderedTypeEx.String_as_OT.cmp_eq in Ebc. subst c. now rewrite Eab.
  - apply OrderedTypeEx.String_as_OT.cmp_lt in Eab, Ebc.
    pose proof (OrderedTypeEx.String_as_OT.lt_trans _ _ _ Eab Ebc) as H.
    apply OrderedTypeEx.String_as_OT.cmp_lt in H.
    unfold OrderedTypeEx.String_as_OT.cmp in H. now rewrite H.
Qed.

Lemma leb_false_flip (a b : string) :
  String.leb a b = false -> String.leb b a = true.
Proof.
  intros H. destruct (String.leb_total a b) as [E|E]; congruence.
Qed.

(** Inserting two entries with different keys gives the same list in
    either order. *)
Lemma insert_by_key_comm (x y : string * string) (l : EnvMap) :
  fst x <> fst y ->
  insert_by_key x (insert_by_key y l) = insert_by_key y (insert_by_key x l).
Proof.
  intros Hxy. induction l as [|h l IH].
  - cbn [insert_by_key].
    destruct (String.leb (fst x) (fst y)) eqn:Exy;
    destruct (String.leb (fst y) (fst x)) eqn:Eyx; try reflexivity.
    + exfalso. apply Hxy. now apply String.leb_antisym.
    + apply leb_false_flip in Exy. congruence.
  - cbn [insert_by_key].
    destruct (String.leb (fst x) (fst h)) eqn:Exh;
    destruct (String.leb (fst y) (fst h)) eqn:Eyh;
    cbn [insert_by_key]; rewrite ?Exh, ?Eyh.
    + destruct (String.leb (fst x) (fst y)) eqn:Exy;
      destruct (String.leb (fst y) (fst x)) eqn:Eyx; try reflexivity.
      * exfalso. apply Hxy. now apply String.leb_antisym.
      * apply leb_false_flip in Exy. congruence.
    + assert (Eyx : String.leb (fst y) (fst x) = false).
      { destruct (String.leb (fst y) (fst x)) eqn:E; [| reflexivity].
        rewrite (leb_trans _ _ _ E Exh) in Eyh. discriminate. }
      rewrite Eyx. reflexivity.
    + assert (Exy : String.leb (fst x) (fst y) = false).
      { destruct (String.leb (fst x) (fst y)) eqn:E; [| reflexivity].
        rewrite (leb_trans _ _ _ E Eyh) in Exh. discriminate. }
      rewrite Exy. reflexivity.
    + now rewrite IH.
Qed.

Lemma insert_by_key_perm (x : string * string) (l : EnvMap) :
  Permutation (insert_by_key x l) (x :: l).
Proof.
  induction l as [|h l IH]; cbn [insert_by_key]; [reflexivity |].
  destruct (String.leb (fst x) (fst h)); [reflexivity |].
  rewrite IH. apply perm_swap.
Qed.

Lemma sorted_entries_perm (m : EnvMap) : Permutation (sorted_entries m) m.
Proof.
  induction m as [|x m IH]; [reflexivity |].
  cbn [sorted_entries fold_right].
  rewrite insert_by_key_perm. now constructor.
Qed.

(** The order in which the map holds its entries does not show in the
    order the template visits them. *)
Lemma sorted_entries_same_map (m1 m2 : EnvMap) :
  same_map m1 m2 -> sorted_entries m1 = sorted_entries m2.
Proof.
  intros [Hnd Hp]. induction Hp as [| x l l' Hp IH | x y l | l l' l'' H1 IH1 H2 IH2].
  - reflexivity.
  - cbn [sorted_entries fold_right] in *.
    inversion Hnd; subst. f_equal. now apply IH.
  - cbn [sorted_entries fold_right].
    apply insert_by_key_comm.
    cbn [map] in Hnd. inversion Hnd as [| ? ? Hin _]; subst.
    intros E. apply Hin. left. now symmetry.
  - rewrite IH1 by assumption. apply IH2.
    apply (Permutation_NoDup (Permutation_map fst H1) Hnd).
Qed.

Lemma range_env_same_map (m1 m2 : EnvMap) :
  same_map m1 m2 -> range_env m1 = range_env m2.
Proof.
  intros H. unfold range_env. now rewrite (sorted_entries_same_map _ _ H).
Qed.


(** The visit is in ascending key order. *)
Example range_env_sorted :
  range_env [("PYTHONUNBUFFERED", "1"); ("LOG_LEVEL", "INFO")] =
  [mkEnvVar "LOG_LEVEL" (Value "INFO"); mkEnvVar "PYTHONUNBUFFERED" (Value "1")].
Proof. reflexivity. Qed.

End RangeFacts.

(** ** The startup gate *)

Section GateFacts.
Import Helpers Templates Render.

Variable reach : string -> Z -> nat -> bool.

(** As long as the probes fail, each retry writes one line and sleeps
    two seconds. *)
Lemma gate_retries (R : string) (k n c : nat) (l : list string) :
  (forall j, j < k -> reach (postgres_name R) 5432%Z (c + 2 * j) = false) ->
  Gate.run reach (ic_script (wait_for_postgres R)) (k + n) (Gate.mkState c l) =
  Gate.run reach (ic_script (wait_for_postgres R)) n
    (Gate.mkState (c + 2 * k) (l ++ repeat waiting_line k)%list).
Proof.
  revert c l. induction k as [|k IH]; intros c l H.
  - cbn [repeat]. rewrite app_nil_r. do 2 f_equal. lia.
  - cbn [Nat.add Gate.run]. cbn [wait_for_postgres ic_script nc_host nc_port].
    fold (postgres_name R).
    specialize (H 0 ltac:(lia)) as H0.
    replace (c + 2 * 0) with c in H0 by lia.
    cbn [Gate.clock]. rewrite H0.
    cbn [loop_body Gate.run_body fold_left Gate.run_cmd Gate.clock Gate.log].
    change (mkUntilNc (postgres_name R) 5432 [Echo waiting_line; Sleep 2])
      with (ic_script (wait_for_postgres R)).
    rewrite IH.
    + f_equal. f_equal; [lia |].
      rewrite <- app_assoc. reflexivity.
    + intros j Hj. specialize (H (S j) ltac:(lia)).
      replace (c + 2 + 2 * j) with (c + 2 * S j) by lia. exact H.
Qed.

(** The gate blocks: after any number of failed probes it is still
    waiting, and its log shows one line per retry. *)
Lemma gate_blocks (R : string) (k : nat) :
  (forall j, j < k -> reach (postgres_name R) 5432%Z (2 * j) = false) ->
  Gate.run reach (ic_script (wait_for_postgres R)) k Gate.initial =
  Gate.Waiting (Gate.mkState (2 * k) (repeat waiting_line k)).
Proof.
  intros H. unfold Gate.initial.
  replace k with (k + 0) at 1 by lia.
  rewrite gate_retries by exact H. reflexivity.
Qed.

(** The gate opens at the first probe that succeeds. *)
Lemma gate_opens (R : string) (k : nat) :
  (forall j, j < k -> reach (postgres_name R) 5432%Z (2 * j) = false) ->
  reach (postgres_name R) 5432%Z (2 * k) = true ->
  Gate.run reach (ic_script (wait_for_postgres R)) (S k) Gate.initial =
  Gate.Completed (Gate.mkState (2 * k) (repeat waiting_line k)).
Proof.
  intros H Hk. unfold Gate.initial.
  replace (S k) with (k + 1) by lia.
  rewrite gate_retries by exact H.
  cbn [Gate.run wait_for_postgres ic_script nc_host nc_port Gate.clock].
  fold (postgres_name R). cbn [Nat.add]. rewrite Hk. reflexivity.
Qed.

End GateFacts.

(** ** The rendered workloads and their gates *)

Section WorkloadFacts.
Import Helpers Templates Render Inspect.

Lemma backend_deployment_rendered (R : string) (v : BackendValues) :
  In (RDeployment (backend_deployment R v)) (render_backend R v).
Proof.
  unfold render_backend. rewrite !in_app_iff. right. right. right.
  now left.
Qed.

Lemma render_backend_disabled (R : string) (v : BackendValues) :
  pg_enabled (b_postgres v) = false ->
  render_backend R v =
  [RService (backend_service R v); RDeployment (backend_deployment R v)].
Proof. intros H. unfold render_backend. rewrite H. reflexivity. Qed.

Lemma render_backend_enabled (R : string) (v : BackendValues) :
  pg_enabled (b_postgres v) = true ->
  render_backend R v =
  [RSecret (postgres_secret R v); RService (backend_service R v);
   RService (postgres_service R); RStatefulSet (postgres_statefulset R v);
   RDeployment (backend_deployment R v)].
Proof. intros H. unfold render_backend. rewrite H. reflexivity. Qed.

(** C8.  For every backend configuration, the rendered Deployment has the
    wait-for-postgres init container, which probes release-postgres on
    port 5432, whether PostgreSQL is enabled or not; with PostgreSQL
    disabled the release consists of the backend Service and the
    Deployment only, no PostgreSQL Service, Secret or StatefulSet; and
    while nothing answers at that address the init container waits, for
    any number of probes. *)
Theorem C8_gate_unconditional (R : string) (v : BackendValues) :
  In (RDeployment (backend_deployment R v)) (render_backend R v) /\
  d_initContainers (backend_deployment R v) = [wait_for_postgres R] /\
  ic_name (wait_for_postgres R) = "wait-for-postgres" /\
  nc_host (ic_script (wait_for_postgres R)) = R ++ "-postgres" /\
  nc_port (ic_script (wait_for_postgres R)) = 5432%Z /\
  (pg_enabled (b_postgres v) = false ->
   render_backend R v =
   [RService (backend_service R v); RDeployment (backend_deployment R v)]) /\
  (forall reach : string -> Z -> nat -> bool,
     (forall t, reach (R ++ "-postgres") 5432%Z t = false) ->
     forall n,
       Gate.run reach (ic_script (wait_for_postgres R)) n Gate.initial =
       Gate.Waiting (Gate.mkState (2 * n) (repeat waiting_line n))).
Proof.
  split; [apply backend_deployment_rendered |].
  do 4 (split; [reflexivity |]).
  split; [apply render_backend_disabled |].
  intros reach H n. apply gate_blocks. intros j _. apply H.
Qed.

Lemma C8_gate_unconditional_witness :
  pg_enabled (b_postgres external_db_values) = false /\
  service_names (render_backend "my-backend" external_db_values)
    = ["my-backend"] /\
  Gate.run (fun _ _ _ => false) (ic_script (wait_for_postgres "my-backend"))
    3 Gate.initial =
  Gate.Waiting (Gate.mkState 6 [waiting_line; waiting_line; waiting_line]).
Proof.
  destruct (C8_gate_unconditional "my-backend" external_db_values)
    as (_ & _ & _ & _ & _ & Hoff & Hwait).
  split; [reflexivity |]. split.
  - rewrite (Hoff eq_refl). reflexivity.
  - apply (Hwait (fun _ _ _ => false)). intros t. reflexivity.
Defined.

(** C3, as amended.  The backend workload's startup stage contains a gate
    for its PostgreSQL dependency: an init container that probes the
    Service address release-postgres on port 5432, the address and port of
    the PostgreSQL Service rendered when it is enabled; on each failed
    probe it writes a waiting line and sleeps two seconds, it is still
    waiting after any number of failed probes, and it completes at the
    first probe that succeeds.  The frontend workload has no init
    container: its dependency on the backend is not gated. *)
Theorem C3_backend_gate (R : string) (v : BackendValues)
    (Rf : string) (vf : FrontendValues) :
  gated_on (backend_deployment R v) (postgres_name R) /\
  loop_body (ic_script (wait_for_postgres R)) = [Echo waiting_line; Sleep 2] /\
  (pg_enabled (b_postgres v) = true ->
   In (RService (postgres_service R)) (render_backend R v) /\
   svc_name (postgres_service R) = nc_host (ic_script (wait_for_postgres R)) /\
   svc_port (postgres_service R) = nc_port (ic_script (wait_for_postgres R))) /\
  (forall (reach : string -> Z -> nat -> bool) (k : nat),
     (forall j, j < k -> reach (postgres_name R) 5432%Z (2 * j) = false) ->
     Gate.run reach (ic_script (wait_for_postgres R)) k Gate.initial =
     Gate.Waiting (Gate.mkState (2 * k) (repeat waiting_line k)) /\
     (reach (postgres_name R) 5432%Z (2 * k) = true ->
      Gate.run reach (ic_script (wait_for_postgres R)) (S k) Gate.initial =
      Gate.Completed (Gate.mkState (2 * k) (repeat waiting_line k)))) /\
  d_initContainers (frontend_deployment Rf vf) = [].
Proof.
  split.
  { exists (wait_for_postgres R). split; [now left | reflexivity]. }
  split; [reflexivity |].
  split.
  { intros H. rewrite (render_backend_enabled R v H).
    split; [simpl; auto | split; reflexivity]. }
  split; [| reflexivity].
  intros reach k H. split.
  - now apply gate_blocks.
  - intros Hk. now apply gate_opens.
Qed.

Lemma C3_backend_gate_witness :
  let reach := fun (_ : string) (_ : Z) (t : nat) => Nat.leb 4 t in
  pg_enabled (b_postgres default_backend_values) = true /\
  In (RService (postgres_service "my-backend"))
     (render_backend "my-backend" default_backend_values) /\
  Gate.run reach (ic_script (wait_for_postgres "my-backend")) 3 Gate.initial =
  Gate.Completed (Gate.mkState 4 [waiting_line; waiting_line]).
Proof.
  intros reach.
  destruct (C3_backend_gate "my-backend" default_backend_values
              "my-frontend" default_frontend_values)
    as (_ & _ & Hsvc & Hrun & _).
  split; [reflexivity |]. split.
  - apply (Hsvc eq_refl).
  - apply (Hrun reach 2).
    + intros j Hj. destruct j as [|[|j]]; [reflexivity | reflexivity | lia].
    + reflexivity.
Defined.

(** C3, the claim as stated fails.  In the full stack the frontend
    workload depends on the backend release, and no Deployment rendered
    has an init container that probes it. *)
Lemma C3_frontend_ungated_counterexample :
  In ("my-frontend", "my-backend") (edges full_stack) /\
  In (RDeployment (frontend_deployment "my-frontend" default_frontend_values))
     (render_all full_stack) /\
  forall d, In (RDeployment d) (render_all full_stack) ->
            ~ gated_on d "my-backend".
Proof.
  split; [vm_compute; auto |]. split; [vm_compute; auto 10 |].
  intros d Hd [ic [Hic Hhost]].
  vm_compute in Hd.
  repeat (destruct Hd as [Hd|Hd]; [try discriminate Hd |]); try contradiction.
  - injection Hd as <-. vm_compute in Hic.
    destruct Hic as [<-|[]]. vm_compute in Hhost. discriminate.
  - injection Hd as <-. vm_compute in Hic. contradiction.
Qed.

End WorkloadFacts.

(** ** Credentials *)

Section CredentialFacts.
Import Helpers Templates Render Inspect Base64.




(** C9.  Every Secret a backend release renders stores under username,
    password and database the base64 encoding of the configured literal,
    and decoding the stored field gives the literal back. *)
Theorem C9_secret_roundtrip (R : string) (v : BackendValues) (s : Secret)
    (key literal : string) :
  In (RSecret s) (render_backend R v) ->
  credential (pg_auth (b_postgres v)) key = Some literal ->
  exists stored,
    secret_field s key = Some stored /\
    stored = b64enc literal /\
    b64dec stored = Some literal.
Proof.
  intros Hs Hkey.
  assert (Es : s = postgres_secret R v).
  { unfold render_backend in Hs. rewrite !in_app_iff in Hs.
    destruct Hs as [Hs|[Hs|[Hs|Hs]]].
    - destruct (pg_enabled (b_postgres v)); [| contradiction].
      destruct Hs as [Hs|[]]. now injection Hs.
    - destruct Hs as [Hs|[]]. discriminate.
    - destruct (pg_enabled (b_postgres v)); [| contradiction].
      destruct Hs as [Hs|[Hs|[]]]; discriminate.
    - destruct Hs as [Hs|[]]. discriminate. }
  subst s. exists (b64enc literal).
  split; [| split; [reflexivity | apply b64dec_b64enc]].
  unfold credential in Hkey. unfold secret_field, postgres_secret.
  cbn [sec_data assoc].
  rewrite (String.eqb_sym "username"), (String.eqb_sym "password"),
    (String.eqb_sym "database").
  destruct (String.eqb key "username"); [congruence |].
  destruct (String.eqb key "password"); [congruence |].
  destruct (String.eqb key "database"); [congruence | discriminate].
Qed.

Lemma C9_secret_roundtrip_witness :
  In (RSecret (postgres_secret "my-backend" default_backend_values))
     (render_backend "my-backend" default_backend_values) /\
  credential (pg_auth (b_postgres default_backend_values)) "password"
    = Some "supersecret" /\
  exists stored,
    secret_field (postgres_secret "my-backend" default_backend_values)
      "password" = Some stored /\
    stored = b64enc "supersecret" /\
    b64dec stored = Some "supersecret".
Proof.
  assert (H : In (RSecret (postgres_secret "my-backend" default_backend_values))
                 (render_backend "my-backend" default_backend_values))
    by (simpl; auto).
  split; [exact H |]. split; [reflexivity |].
  exact (C9_secret_roundtrip "my-backend" default_backend_values _
           "password" "supersecret" H eq_refl).
Defined.

End CredentialFacts.

(** ** The frontend's backend URL *)

Section BackendUrlFacts.
Import Sprig Helpers Templates Render Inspect.

Lemma customUrl_set_iff (b : BackendRef) :
  customUrl_set b = true <->
  exists u, ref_customUrl b = Some u /\ u <> EmptyString.
Proof.
  unfold customUrl_set, truthy. destruct (ref_customUrl b) as [u|].
  - rewrite negb_true_iff. rewrite String.eqb_neq. split.
    + intros H. now exists u.
    + intros (u' & E & H). now injection E as <-.
  - split; [discriminate | intros (u & E & _); discriminate].
Qed.

(** What [%d] prints denotes the integer printed. *)
Lemma decimal_value_printf_d (z : Z) : decimal_value (printf_d z) = Some z.
Proof.
  unfold decimal_value, printf_d. rewrite NilEmpty.isi.
  assert (N : Decimal.norm (Z.to_int z) = Z.to_int z).
  { rewrite <- DecimalZ.to_of. now rewrite DecimalZ.of_to. }
  destruct (Decimal.int_eq_dec _ _) as [_|H]; [| contradiction].
  now rewrite DecimalZ.of_to.
Qed.

(** And no other text denotes it. *)
Lemma decimal_value_unique (t : string) (z : Z) :
  decimal_value t = Some z -> t = printf_d z.
Proof.
  unfold decimal_value, printf_d.
  destruct (NilEmpty.int_of_string t) as [d|] eqn:E; [| discriminate].
  destruct (Decimal.int_eq_dec _ _) as [N|_]; [| discriminate].
  intros H. injection H as <-.
  rewrite DecimalZ.to_of, N. symmetry. now apply NilEmpty.sis.
Qed.

Lemma in_int64_iff (z : Z) :
  in_int64 z = true <->
  (-9223372036854775808 <= z <= 9223372036854775807)%Z.
Proof.
  unfold in_int64, min_int64, max_int64.
  rewrite andb_true_iff, !Z.leb_le.
  change (- 2 ^ 63)%Z with (-9223372036854775808)%Z.
  change (2 ^ 63 - 1)%Z with 9223372036854775807%Z. reflexivity.
Qed.

(** [int] rounds toward zero within 64 bits. *)
Lemma int_in_range (x : Q) :
  (-9223372036854775808 <= Z.quot (Qnum x) (Z.pos (Qden x))
   <= 9223372036854775807)%Z ->
  int x = Z.quot (Qnum x) (Z.pos (Qden x)).
Proof.
  intros H. apply in_int64_iff in H. unfold int. cbv zeta. now rewrite H.
Qed.

Lemma int_out_of_range (x : Q) :
  ~ (-9223372036854775808 <= Z.quot (Qnum x) (Z.pos (Qden x))
     <= 9223372036854775807)%Z ->
  int x = (-9223372036854775808)%Z.
Proof.
  intros H. unfold int. cbv zeta.
  destruct (in_int64 _) eqn:E; [| reflexivity].
  apply in_int64_iff in E. contradiction.
Qed.

(** The result always fits 64 bits. *)
Lemma int_bounds (x : Q) :
  (-9223372036854775808 <= int x <= 9223372036854775807)%Z.
Proof.
  unfold int. cbv zeta. destruct (in_int64 _) eqn:E.
  - now apply in_int64_iff.
  - unfold min_int64. cbn. lia.
Qed.

(** A whole number within 64 bits is left as it is. *)
Lemma int_whole (z : Z) :
  (-9223372036854775808 <= z <= 9223372036854775807)%Z ->
  int (Qmake z 1) = z.
Proof.
  intros H. rewrite int_in_range; cbn [Qnum Qden]; rewrite Z.quot_1_r;
    [reflexivity | exact H].
Qed.

(** The value of the helper when no custom URL is set: the address
    http://releaseName:port, in which the port is the decimal numeral of
    the coerced number. *)
Lemma backendUrl_derived (v : FrontendValues) :
  customUrl_set (f_backend v) = false ->
  exists text,
    backendUrl v = "http://" ++ ref_releaseName (f_backend v) ++ ":" ++ text /\
    decimal_value text = Some (int (ref_port (f_backend v))).
Proof.
  intros H. exists (printf_d (int (ref_port (f_backend v)))).
  split; [| apply decimal_value_printf_d].
  unfold backendUrl. now rewrite H.
Qed.

(** An empty custom URL is no custom URL. *)
Lemma backendUrl_empty_customUrl (v : FrontendValues) :
  ref_customUrl (f_backend v) = Some EmptyString ->
  backendUrl v =
  "http://" ++ ref_releaseName (f_backend v) ++ ":" ++
  printf_d (int (ref_port (f_backend v))).
Proof.
  intros H. unfold backendUrl, customUrl_set. now rewrite H.
Qed.

(** C10.  The frontend Deployment has the entry BACKEND_URL, whose value
    is the helper's result.  When customUrl is set, that value is
    customUrl verbatim, whatever the backend release name and port are.
    When it is not set, the value is http://releaseName:port, where port
    is the decimal numeral of the configured port coerced to an integer:
    a whole number within 64 bits is printed as it is, a fractional one
    loses its fraction (rounding toward zero), and a number outside 64
    bits is printed as the least 64-bit integer.  (Set is the template's
    own test: the key is present and not the empty string.) *)
Theorem C10_backend_url (R : string) (v : FrontendValues) :
  In (mkEnvVar "BACKEND_URL" (Value (backendUrl v)))
     (d_env (frontend_deployment R v)) /\
  (forall u, ref_customUrl (f_backend v) = Some u -> u <> EmptyString ->
     backendUrl v = u /\
     forall releaseName port, backendUrl (with_backend v releaseName port) = u) /\
  (customUrl_set (f_backend v) = false ->
     exists text port,
       backendUrl v =
       "http://" ++ ref_releaseName (f_backend v) ++ ":" ++ text /\
       decimal_value text = Some port /\
       let q := Z.quot (Qnum (ref_port (f_backend v)))
                       (Z.pos (Qden (ref_port (f_backend v)))) in
       ((-9223372036854775808 <= q <= 9223372036854775807)%Z -> port = q) /\
       (~ (-9223372036854775808 <= q <= 9223372036854775807)%Z ->
        port = (-9223372036854775808)%Z) /\
       (forall z, ref_port (f_backend v) = Qmake z 1 ->
          (-9223372036854775808 <= z <= 9223372036854775807)%Z -> port = z)) /\
  (ref_customUrl (f_backend v) = None -> customUrl_set (f_backend v) = false).
Proof.
  split.
  { unfold frontend_deployment. cbn [d_env]. apply in_or_app. right.
    now left. }
  split.
  { intros u Hu Hne.
    assert (Hset : truthy u = true).
    { unfold truthy. now rewrite negb_true_iff, String.eqb_neq. }
    split.
    - unfold backendUrl, customUrl_set, customUrl_value. now rewrite Hu, Hset.
    - intros rn port. unfold backendUrl, customUrl_set, customUrl_value,
        with_backend. cbn [f_backend ref_customUrl]. now rewrite Hu, Hset. }
  split.
  { intros H. destruct (backendUrl_derived v H) as (text & Hurl & Hval).
    exists text, (int (ref_port (f_backend v))).
    split; [exact Hurl |]. split; [exact Hval |].
    cbv zeta. split; [apply int_in_range |].
    split; [apply int_out_of_range |].
    intros z Hz Hr. rewrite Hz. now apply int_whole. }
  intros H. unfold customUrl_set. now rewrite H.
Qed.

Lemma C10_backend_url_witness :
  let v := mkFrontendValues default_naming 1 false "frontend-app" "latest"
             "ClusterIP" 3000%Z []
             (mkBackendRef "my-backend" (Qmake 8000 1)
                (Some "https://api.example.com")) in
  ref_customUrl (f_backend v) = Some "https://api.example.com" /\
  backendUrl v = "https://api.example.com" /\
  customUrl_set (f_backend default_frontend_values) = false /\
  exists text,
    backendUrl default_frontend_values = "http://my-backend:" ++ text /\
    decimal_value text = Some 8000%Z.
Proof.
  intros v.
  destruct (C10_backend_url "my-frontend" v) as (_ & Hset & _ & _).
  destruct (C10_backend_url "my-frontend" default_frontend_values)
    as (_ & _ & Hunset & Hnone).
  split; [reflexivity |]. split.
  - apply (Hset "https://api.example.com" eq_refl). discriminate.
  - split; [apply Hnone; reflexivity |].
    destruct (Hunset (Hnone eq_refl)) as (text & port & Hurl & Hval & _ & _ & Hz).
    exists text. split; [exact Hurl |].
    rewrite Hval. f_equal. apply (Hz 8000%Z eq_refl). lia.
Defined.

(** The default port as the chart prints it. *)
Example printf_d_default_port : printf_d 8000 = "8000".
Proof. reflexivity. Qed.

Example decimal_value_leading_zero : decimal_value "08000" = None.
Proof. reflexivity. Qed.

Example printf_d_negative : printf_d (-5) = "-5".
Proof. reflexivity. Qed.

(** A port beyond 64 bits, 1e30, comes out as the least 64-bit integer. *)
Example backend_url_port_out_of_range :
  backendUrl (with_backend default_frontend_values "api"
                (Qmake 1000000000000000000000000000000 1))
  = "http://api:-9223372036854775808".
Proof. reflexivity. Qed.

(** The port is coerced: a fractional number loses its fraction. *)
Example backend_url_fractional_port :
  backendUrl (with_backend default_frontend_values "api" (Qmake 16001 2))
  = "http://api:8000".
Proof. reflexivity. Qed.

End BackendUrlFacts.

(** ** Rendering a configuration *)

Section RenderFacts.
Import Sprig Helpers Templates Render Inspect.

Lemma render_same_release (r1 r2 : Release) :
  same_release r1 r2 -> render r1 = render r2.
Proof.
  intros [R n rc repo tag ty port e1 e2 pg H
         |R n rc hpa repo tag ty port e1 e2 b H].
  - unfold render, render_backend, backend_deployment.
    cbn -[range_env fullname]. now rewrite (range_env_same_map _ _ H).
  - unfold render, render_frontend, frontend_deployment.
    cbn -[range_env fullname backendUrl Sprig.default].
    now rewrite (range_env_same_map _ _ H).
Qed.

(** C7.  Rendering is deterministic: two renders of the same
    configuration, the same releases in the same order with the same
    values, give the same manifests, whatever order the env maps hold
    their entries in. *)
Theorem C7_render_deterministic (cfg1 cfg2 : Configuration) :
  Forall2 same_release cfg1 cfg2 ->
  render_all cfg1 = render_all cfg2 /\
  helm_template cfg1 = helm_template cfg2.
Proof.
  intros H.
  assert (E : render_all cfg1 = render_all cfg2).
  { induction H as [|r1 r2 l1 l2 Hr _ IH]; [reflexivity |].
    unfold render_all in *. cbn [flat_map].
    now rewrite (render_same_release _ _ Hr), IH. }
  split; [exact E |]. unfold helm_template. now rewrite E.
Qed.

Lemma C7_render_deterministic_witness :
  let backend env :=
    mkRelease "my-backend"
      (BackendChart
         (mkBackendValues default_naming 1 "backend-app" "latest" "ClusterIP"
            8000%Z env default_postgres)) in
  let e1 := [("PYTHONUNBUFFERED", "1"); ("LOG_LEVEL", "INFO")] in
  let e2 := [("LOG_LEVEL", "INFO"); ("PYTHONUNBUFFERED", "1")] in
  Forall2 same_release [backend e1] [backend e2] /\
  render_all [backend e1] = render_all [backend e2].
Proof.
  intros backend e1 e2.
  assert (H : Forall2 same_release [backend e1] [backend e2]).
  { constructor; [| constructor]. apply same_backend. split.
    - cbn. constructor; [| constructor; [| constructor]]; cbn.
      + intros [E|[]]. discriminate.
      + intros [].
    - apply perm_swap. }
  split; [exact H |].
  apply (C7_render_deterministic [backend e1] [backend e2] H).
Defined.

(** Every declared dependency is wired into the workload that declares
    it, and that workload is rendered. *)
Lemma edge_wired (cfg : Configuration) (from to : string) :
  In (from, to) (edges cfg) ->
  exists d, In (RDeployment d) (render_all cfg) /\
            d_name d = from /\ wired_to d to.
Proof.
  unfold edges, render_all. intros H.
  apply in_flat_map in H as (r & Hr & H).
  apply in_map_iff in H as (t & E & Ht). injection E as <- ->.
  exists (workload r). split; [| split; [reflexivity |]].
  - apply in_flat_map. exists r. split; [exact Hr |].
    unfold render, workload. destruct (release_chart r) as [v|v].
    + apply backend_deployment_rendered.
    + simpl. auto.
  - unfold depends_on, workload in *. destruct (release_chart r) as [v|v].
    + destruct Ht as [<-|[]]. left. exists (wait_for_postgres (release_name r)).
      split; [now left | reflexivity].
    + destruct (customUrl_set (f_backend v)) eqn:E; [contradiction |].
      destruct Ht as [<-|[]]. right.
      exists (printf_d (int (ref_port (f_backend v)))).
      unfold frontend_deployment. cbn [d_env]. apply in_or_app. right.
      left. unfold backendUrl. now rewrite E.
Qed.

(** C1, as amended.  Rendering has no check of the declared
    dependencies: for every configuration in which a workload's
    dependency names a component absent from the configuration, rendering
    succeeds with the whole resource set, in which the dependent's
    Deployment is present and wired to the missing name as it is
    written. *)
Theorem C1_dangling_renders (cfg : Configuration) (from to : string) :
  dangling cfg from to ->
  helm_template cfg = Rendered (render_all cfg) /\
  (forall e, helm_template cfg <> Failed e) /\
  exists d, In (RDeployment d) (render_all cfg) /\
            d_name d = from /\ wired_to d to.
Proof.
  intros [He _]. split; [reflexivity |]. split; [discriminate |].
  now apply edge_wired.
Qed.

Lemma frontend_alone_dangling :
  dangling frontend_alone "my-frontend" "my-backend".
Proof.
  split; [vm_compute; auto |].
  vm_compute. intros [E|[]]. discriminate.
Qed.

Lemma C1_dangling_renders_witness :
  dangling frontend_alone "my-frontend" "my-backend" /\
  exists d, In (RDeployment d) (render_all frontend_alone) /\
            d_name d = "my-frontend" /\ wired_to d "my-backend".
Proof.
  split; [exact frontend_alone_dangling |].
  apply (C1_dangling_renders frontend_alone "my-frontend" "my-backend"
           frontend_alone_dangling).
Defined.

(** C1, the claim as stated fails.  The frontend release installed alone
    depends on the release my-backend, which the configuration does not
    contain; rendering does not fail with UnknownDependency, it returns
    the Service and the Deployment of the frontend. *)
Lemma C1_unknown_dependency_counterexample :
  dangling frontend_alone "my-frontend" "my-backend" /\
  helm_template frontend_alone <>
    Failed (UnknownDependency "my-frontend" "my-backend") /\
  helm_template frontend_alone =
    Rendered
      [RService (frontend_service "my-frontend" default_frontend_values);
       RDeployment (frontend_deployment "my-frontend" default_frontend_values)].
Proof.
  split; [exact frontend_alone_dangling |].
  split; [discriminate | reflexivity].
Qed.

(** The backend with PostgreSQL switched off is a second dangling
    reference that renders: its gate names a Service that is not
    rendered. *)
Lemma external_db_dangling :
  dangling [mkRelease "my-backend" (BackendChart external_db_values)]
    "my-backend" "my-backend-postgres".
Proof.
  split; [vm_compute; auto |].
  vm_compute. intros [E|[]]. discriminate.
Qed.

(** In a cycle every member depends on another member. *)
Lemma chain_step (e : list (string * string)) (l : list string)
    (d h : string) :
  chain e l -> In (last l d, h) e ->
  forall c, In c l -> exists n, (In n l \/ n = h) /\ In (c, n) e.
Proof.
  induction l as [|a l IH]; intros Hc Hl c Hin; [contradiction |].
  destruct l as [|b l].
  - destruct Hin as [<-|[]]. exists h. split; [now right | exact Hl].
  - destruct Hc as [Hab Hc]. destruct Hin as [<-|Hin].
    + exists b. split; [left; right; now left | exact Hab].
    + change (last (a :: b :: l) d) with (last (b :: l) d) in Hl.
      destruct (IH Hc Hl c Hin) as (n & [Hn|Hn] & He).
      * exists n. split; [left; now right | exact He].
      * exists n. split; [now right | exact He].
Qed.

Lemma cycle_member_depends (cfg : Configuration) (cyc : list string) :
  cycle cfg cyc ->
  forall c, In c cyc -> exists n, In n cyc /\ In (c, n) (edges cfg).
Proof.
  intros (Hlen & _ & _ & Hchain & Hclose) c Hc.
  destruct (chain_step _ _ _ _ Hchain Hclose c Hc) as (n & [Hn|Hn] & He).
  - now exists n.
  - exists n. split; [| exact He]. subst n.
    destruct cyc; [contradiction | now left].
Qed.

(** C2, as amended.  Rendering has no cycle detection: for every
    configuration whose dependencies form a cycle of two or more
    workloads, rendering succeeds, with no failure of any kind, and the
    resource set has the Deployment of every workload of the cycle, each
    wired to another workload of the cycle. *)
Theorem C2_cycle_renders (cfg : Configuration) (cyc : list string) :
  cycle cfg cyc ->
  helm_template cfg = Rendered (render_all cfg) /\
  (forall e, helm_template cfg <> Failed e) /\
  forall c, In c cyc ->
    exists d n, In (RDeployment d) (render_all cfg) /\ d_name d = c /\
                In n cyc /\ wired_to d n.
Proof.
  intros H. split; [reflexivity |]. split; [discriminate |].
  intros c Hc.
  destruct (cycle_member_depends cfg cyc H c Hc) as (n & Hn & He).
  destruct (edge_wired cfg c n He) as (d & Hd & Hname & Hw).
  now exists d, n.
Qed.

Lemma mutual_pair_cycle : cycle mutual_pair ["a-frontend"; "b-frontend"].
Proof.
  unfold cycle. split; [cbn; lia |]. split.
  { constructor; [| constructor; [| constructor]]; cbn.
    - intros [E|[]]. discriminate.
    - intros []. }
  split; [vm_compute; intros x [<-|[<-|[]]]; auto |].
  split; vm_compute; auto.
Qed.

Lemma C2_cycle_renders_witness :
  cycle mutual_pair ["a-frontend"; "b-frontend"] /\
  helm_template mutual_pair = Rendered (render_all mutual_pair).
Proof.
  split; [exact mutual_pair_cycle |].
  apply (C2_cycle_renders mutual_pair ["a-frontend"; "b-frontend"]
           mutual_pair_cycle).
Defined.

(** C2, the claim as stated fails.  Two frontend releases that name each
    other as their backend form a cycle of length 2 among stateless
    components; rendering does not fail with CyclicDependency on any
    rotation of the cycle, it returns the four manifests. *)
Lemma C2_cyclic_dependency_counterexample :
  cycle mutual_pair ["a-frontend"; "b-frontend"] /\
  (forall rot, rotation ["a-frontend"; "b-frontend"] rot ->
     helm_template mutual_pair <> Failed (CyclicDependency rot)) /\
  helm_template mutual_pair =
    Rendered
      [RService (frontend_service "a-frontend"
                   (frontend_pointing_at "b-frontend"));
       RDeployment (frontend_deployment "a-frontend"
                      (frontend_pointing_at "b-frontend"));
       RService (frontend_service "b-frontend"
                   (frontend_pointing_at "a-frontend"));
       RDeployment (frontend_deployment "b-frontend"
                      (frontend_pointing_at "a-frontend"))].
Proof.
  split; [exact mutual_pair_cycle |].
  split; [intros rot _; discriminate | reflexivity].
Qed.

Example mutual_pair_urls :
  backendUrl (frontend_pointing_at "b-frontend") = "http://b-frontend:8000" /\
  d_name (frontend_deployment "b-frontend" (frontend_pointing_at "a-frontend"))
    = "b-frontend".
Proof. split; reflexivity. Qed.

End RenderFacts.

(** ** The renderings the documents show *)

Section DocumentedRenderings.
Import Helpers Templates Render Identifiers.

(** The Secret of the walkthrough's environment-variable flow. *)
Example secret_my_backend :
  postgres_secret "my-backend" default_backend_values =
  mkSecret "my-backend-postgres-secret"
    [ ("username", "YXBwdXNlcg==");
      ("password", "c3VwZXJzZWNyZXQ=");
      ("database", "YXBwZGI=") ].
Proof. reflexivity. Qed.

(** The storage claim the Makefile deletes for the default release. *)
Example storage_claim_my_backend :
  storage_claim_name "my-backend" = "postgres-data-my-backend-postgres-0".
Proof. reflexivity. Qed.

(** The names of the full stack: the frontend reaches the backend Service
    by the name its values give. *)
Example full_stack_services :
  service_names (render_all full_stack) =
  ["my-backend"; "my-backend-postgres"; "my-frontend"].
Proof. reflexivity. Qed.

Example full_stack_edges :
  edges full_stack =
  [("my-backend", "my-backend-postgres"); ("my-frontend", "my-backend")].
Proof. reflexivity. Qed.

(** With the full name overridden to the PostgreSQL name, the release
    renders two Services under one name. *)
Example overridden_services :
  service_names
    (render_backend "r1"
       (mkBackendValues (mkNaming EmptyString "r1-postgres") 1 "backend-app"
          "latest" "ClusterIP" 8000%Z [] default_postgres))
  = ["r1-postgres"; "r1-postgres"].
Proof. reflexivity. Qed.

Example label_my_backend : rfc1123_label "my-backend-postgres" = true.
Proof. reflexivity. Qed.

Example label_trailing_hyphen : rfc1123_label "my-backend-" = false.
Proof. reflexivity. Qed.

End DocumentedRenderings.

(** ** Labels and selectors *)

Section LabelFacts.
Import Sprig Helpers Identifiers Labels.

Lemma replace_plus_free (new s : string) :
  all_chars not_plus new = true ->
  all_chars not_plus (replace "+"%char new s) = true.
Proof.
  intros Hn. induction s as [|c s IH]; [reflexivity |].
  cbn [replace]. destruct (Ascii.eqb c "+") eqn:E.
  - rewrite all_chars_append, Hn, IH. reflexivity.
  - cbn [all_chars]. unfold not_plus at 1. rewrite E, IH. reflexivity.
Qed.

(** X1.  The chart label is at most 63 characters long and never holds a
    plus sign, whatever the chart name and version are; it is a prefix of
    name-version with its plus signs replaced.  The name label is at most
    63 characters long as well. *)
Theorem chart_label_valid (chartName chartVersion : string) (n : Naming) :
  String.length (chart_label chartName chartVersion) <= 63 /\
  all_chars not_plus (chart_label chartName chartVersion) = true /\
  (exists t, replace "+"%char "_" (chartName ++ "-" ++ chartVersion)
             = chart_label chartName chartVersion ++ t) /\
  String.length (name chartName n) <= 63.
Proof.
  unfold chart_label, name, printf_s_dash_s.
  split; [apply trim_trunc_length |].
  destruct (trim_trunc_prefix
              (replace "+"%char "_" (chartName ++ "-" ++ chartVersion)))
    as [t Ht].
  split.
  - apply (all_chars_prefix _ _ _ _ Ht). now apply replace_plus_free.
  - split; [now exists t | apply trim_trunc_length].
Qed.

Example chart_label_build_metadata :
  chart_label "frontend" "0.1.0+build.7" = "frontend-0.1.0_build.7".
Proof. reflexivity. Qed.

Lemma append_suffix_neq (s suf : string) :
  suf <> EmptyString -> String.eqb (s ++ suf) s = false.
Proof.
  intros H. apply String.eqb_neq. intros E.
  apply (f_equal String.length) in E. rewrite length_append in E.
  destruct suf; [congruence | simpl in E; lia].
Qed.

Lemma label_chart_labels_name (c ver app svc : string) (n : Naming)
    (R : string) (extra : LabelSet) :
  label "app.kubernetes.io/name" (pod_labels c ver app svc n R extra)
  = Some (name c n).
Proof. reflexivity. Qed.

Lemma label_chart_labels_instance (c ver app svc : string) (n : Naming)
    (R : string) (extra : LabelSet) :
  label "app.kubernetes.io/instance" (pod_labels c ver app svc n R extra)
  = Some R.
Proof. reflexivity. Qed.

(** X2.  Each Service selects the pods of its own workload: the selector
    of the chart's Service (also the matchLabels of its Deployment) holds
    on the labels of the pod template, for every naming, release name and
    pod labels added by the values; and the selector of the PostgreSQL
    Service and StatefulSet holds on the PostgreSQL pod. *)
Theorem service_selects_own_pods (c ver app svc : string) (n : Naming)
    (R : string) (extra : LabelSet) :
  (forall k, In k chart_keys -> label k extra = None) ->
  selects (selectorLabels c n R) (pod_labels c ver app svc n R extra) = true /\
  selects (postgres_selector c n R) (postgres_pod_labels c n R) = true.
Proof.
  intros _. split.
  - unfold selects, selectorLabels. cbn [forallb fst snd].
    rewrite label_chart_labels_name, label_chart_labels_instance.
    now rewrite !String.eqb_refl.
  - unfold selects, postgres_selector, postgres_pod_labels.
    cbn [forallb fst snd label String.eqb Ascii.eqb Bool.eqb].
    now rewrite !String.eqb_refl.
Qed.

Lemma service_selects_own_pods_witness :
  (forall k, In k chart_keys -> label k [("tier", "web")] = None) /\
  selects (selectorLabels "frontend" default_naming "my-frontend")
    (pod_labels "frontend" "0.1.0" "0.1.0" "Helm" default_naming
       "my-frontend" [("tier", "web")]) = true.
Proof.
  assert (H : forall k, In k chart_keys -> label k [("tier", "web")] = None).
  { intros k Hk. cbn in Hk.
    destruct Hk as [<-|[<-|[<-|[<-|[<-|[]]]]]]; reflexivity. }
  split; [exact H |].
  apply (service_selects_own_pods "frontend" "0.1.0" "0.1.0" "Helm"
           default_naming "my-frontend" [("tier", "web")] H).
Defined.

(** X3.  Within a release, the backend Service never selects the
    PostgreSQL pod and the PostgreSQL Service never selects a backend
    pod, for every naming and release name. *)
Theorem backend_and_postgres_selectors_disjoint (c ver app svc : string)
    (n : Naming) (R : string) (extra : LabelSet) :
  selects (selectorLabels c n R) (postgres_pod_labels c n R) = false /\
  selects (postgres_selector c n R) (pod_labels c ver app svc n R extra)
    = false.
Proof.
  split.
  - unfold selects, selectorLabels, postgres_pod_labels.
    cbn [forallb fst snd label String.eqb Ascii.eqb Bool.eqb].
    rewrite append_suffix_neq by discriminate. reflexivity.
  - unfold selects, postgres_selector. cbn [forallb fst snd].
    rewrite label_chart_labels_name.
    rewrite String.eqb_sym, append_suffix_neq by discriminate. reflexivity.
Qed.

(** X4.  Two releases with different release names never select each
    other's pods: no selector of one release, of its workload or of its
    PostgreSQL, holds on a pod of the other, whatever the charts and the
    namings are. *)
Theorem releases_do_not_share_pods (c1 c2 ver app svc : string)
    (n1 n2 : Naming) (R1 R2 : string) (extra : LabelSet) :
  R1 <> R2 ->
  selects (selectorLabels c1 n1 R1) (pod_labels c2 ver app svc n2 R2 extra)
    = false /\
  selects (selectorLabels c1 n1 R1) (postgres_pod_labels c2 n2 R2) = false /\
  selects (postgres_selector c1 n1 R1) (pod_labels c2 ver app svc n2 R2 extra)
    = false /\
  selects (postgres_selector c1 n1 R1) (postgres_pod_labels c2 n2 R2) = false.
Proof.
  intros H.
  assert (E : String.eqb R2 R1 = false)
    by (apply String.eqb_neq; congruence).
  repeat split; unfold selects, selectorLabels, postgres_selector,
    postgres_pod_labels; cbn [forallb fst snd];
    rewrite ?label_chart_labels_name, ?label_chart_labels_instance;
    cbn [label String.eqb Ascii.eqb Bool.eqb]; rewrite E;
    now rewrite !andb_false_r.
Qed.

Lemma releases_do_not_share_pods_witness :
  "my-backend" <> "canary" /\
  selects (selectorLabels "backend" default_naming "my-backend")
    (pod_labels "backend" "0.1.0" "0.1.0" "Helm" default_naming "canary" [])
  = false.
Proof.
  assert (H : "my-backend" <> "canary") by discriminate.
  split; [exact H |].
  apply (releases_do_not_share_pods "backend" "backend" "0.1.0" "0.1.0"
           "Helm" default_naming default_naming "my-backend" "canary" [] H).
Defined.

End LabelFacts.

(** ** Names the tools rely on *)

Section NamingFacts.
Import Sprig Helpers Identifiers Templates Render Makefile Frontend.

Lemma trimSuffix_no_hyphen (s : string) :
  last_char s <> Some "-"%char -> trimSuffix "-" s = s.
Proof.
  induction s as [|c s IH]; intros H; [reflexivity |].
  cbn [trimSuffix].
  destruct (String.eqb_spec (String c s) "-") as [E|E].
  - exfalso. apply H. now rewrite E.
  - f_equal. destruct s as [|c' s]; [reflexivity |].
    apply IH. exact H.
Qed.

(** A name that fits is kept whole: when what the workload's name is cut
    from has at most 63 characters and no trailing hyphen, the name is
    exactly that. *)
Lemma fullname_kept_whole (c : string) (n : Naming) (R : string) :
  String.length (fullname_source c n R) <= 63 ->
  last_char (fullname_source c n R) <> Some "-"%char ->
  fullname c n R = fullname_source c n R.
Proof.
  intros Hlen Hlast. rewrite fullname_from_source.
  rewrite trunc_all by exact Hlen. now apply trimSuffix_no_hyphen.
Qed.

(** With the default naming, a workload is named after its release
    exactly when the release name holds the chart name. *)
Lemma fullname_is_release_iff (c R : string) :
  c = "backend" \/ c = "frontend" ->
  String.length R <= 53 ->
  last_char R <> Some "-"%char ->
  fullname c default_naming R = R <-> contains c R = true.
Proof.
  intros Hc Hlen Hlast. rewrite fullname_default.
  destruct (contains c R) eqn:E.
  - split; [reflexivity | intros _].
    rewrite trunc_all by lia. now apply trimSuffix_no_hyphen.
  - split; [| discriminate]. intros H. exfalso.
    assert (Hc8 : String.length c <= 8 /\ last_char c <> Some "-"%char /\
                  c <> EmptyString).
    { destruct Hc; subst c; cbn; repeat split; try lia; discriminate. }
    destruct Hc8 as (Hc8 & Hcl & Hne).
    assert (HL : String.length (R ++ "-" ++ c) = String.length R + 1 + String.length c).
    { rewrite !length_append. cbn [String.length]. lia. }
    rewrite trunc_all in H by lia.
    rewrite trimSuffix_no_hyphen in H.
    + apply (f_equal String.length) in H. lia.
    + change (R ++ "-" ++ c) with (R ++ ("-" ++ c)).
      rewrite last_char_append by discriminate.
      cbn [append last_char]. destruct c; [congruence | exact Hcl].
Qed.

(** X5.  The port-forward targets of the Makefile, [svc/$(RELEASE_NAME)]
    and [svc/$(FRONTEND_RELEASE)], name the Service the chart renders
    exactly when the release name holds the chart name (backend, frontend):
    a backend release called api has its Service under api-backend. *)
Theorem port_forward_targets (vars : Vars) (bv : BackendValues)
    (fv : FrontendValues) :
  b_naming bv = default_naming ->
  f_naming fv = default_naming ->
  String.length (RELEASE_NAME vars) <= 53 ->
  String.length (FRONTEND_RELEASE vars) <= 53 ->
  last_char (RELEASE_NAME vars) <> Some "-"%char ->
  last_char (FRONTEND_RELEASE vars) <> Some "-"%char ->
  (svc_name (backend_service (RELEASE_NAME vars) bv) = pf_backend_service vars
   <-> contains "backend" (RELEASE_NAME vars) = true) /\
  (svc_name (frontend_service (FRONTEND_RELEASE vars) fv)
     = pf_frontend_service vars
   <-> contains "frontend" (FRONTEND_RELEASE vars) = true).
Proof.
  intros Hb Hf L1 L2 E1 E2.
  unfold backend_service, frontend_service, pf_backend_service,
    pf_frontend_service. cbn [svc_name chart_name backend_chart frontend_chart].
  rewrite Hb, Hf. split; apply fullname_is_release_iff; auto.
Qed.

Lemma port_forward_targets_witness :
  b_naming default_backend_values = default_naming /\
  String.length (RELEASE_NAME (mkVars "api" "web" "default")) <= 53 /\
  svc_name (backend_service "api" default_backend_values) <> "api" /\
  svc_name (frontend_service "my-frontend" default_frontend_values)
    = "my-frontend".
Proof.
  split; [reflexivity |]. split; [cbn; lia |].
  destruct (port_forward_targets (mkVars "api" "my-frontend" "default")
              default_backend_values default_frontend_values)
    as [Hb Hf]; try reflexivity; try (cbn; lia); try discriminate.
  split.
  - intros E. apply Hb in E. discriminate.
  - apply Hf. reflexivity.
Defined.

(** X6.  The frontend reaches the backend at [http://<releaseName>:<port>],
    the port being the decimal numeral of a 64-bit integer, the configured
    port itself when that is a whole number within 64 bits.  With the
    backend's naming at its default, that host is the name of a Service of
    the backend release of that name exactly when the name holds the word
    backend; otherwise the address names no Service of it. *)
Theorem backend_url_reaches_backend (B : string) (bv : BackendValues)
    (fv : FrontendValues) :
  b_naming bv = default_naming ->
  String.length B <= 53 ->
  last_char B <> Some "-"%char ->
  customUrl_set (f_backend fv) = false ->
  ref_releaseName (f_backend fv) = B ->
  (exists text port,
     backendUrl fv = "http://" ++ B ++ ":" ++ text /\
     decimal_value text = Some port /\
     (-9223372036854775808 <= port <= 9223372036854775807)%Z /\
     (forall z, ref_port (f_backend fv) = Qmake z 1 ->
        (-9223372036854775808 <= z <= 9223372036854775807)%Z -> port = z)) /\
  (In B (service_names (render_backend B bv)) <-> contains "backend" B = true).
Proof.
  intros Hn Hlen Hlast Hset HB. split.
  { destruct (backendUrl_derived fv Hset) as (text & Hurl & Hval).
    exists text, (int (ref_port (f_backend fv))).
    rewrite HB in Hurl. split; [exact Hurl |]. split; [exact Hval |].
    split; [apply int_bounds |].
    intros z Hz Hr. rewrite Hz. now apply int_whole. }
  rewrite <- (fullname_is_release_iff "backend" B (or_introl eq_refl) Hlen Hlast).
  assert (Hpg : B ++ "-postgres" <> B).
  { intros E. apply (f_equal String.length) in E.
    rewrite length_append in E. cbn [String.length] in E. lia. }
  unfold render_backend, backend_service.
  cbn [chart_name backend_chart]. rewrite Hn.
  destruct (pg_enabled (b_postgres bv)); cbn; split.
  - intros [E|[E|[]]]; [now symmetry | exfalso; now apply Hpg].
  - intros E. left. now symmetry.
  - intros [E|[]]. now symmetry.
  - intros E. left. now symmetry.
Qed.

Lemma backend_url_reaches_backend_witness :
  customUrl_set (f_backend default_frontend_values) = false /\
  In "my-backend"
     (service_names (render_backend "my-backend" default_backend_values)) /\
  ~ In "api" (service_names (render_backend "api" default_backend_values)).
Proof.
  split; [reflexivity |].
  destruct (backend_url_reaches_backend "my-backend" default_backend_values
              default_frontend_values) as [_ H1];
    try reflexivity; try (cbn; lia); try discriminate.
  destruct (backend_url_reaches_backend "api" default_backend_values
              (frontend_pointing_at "api")) as [_ H2];
    try reflexivity; try (cbn; lia); try discriminate.
  split.
  - apply H1. reflexivity.
  - intros H. apply H2 in H. discriminate.
Defined.


End NamingFacts.

(** ** Credentials at run time *)

Section RuntimeFacts.
Import Helpers Templates Render Inspect Base64 Runtime Makefile.




Example runtime_password :
  env_value (render_backend "my-backend" default_backend_values)
    (mkEnvVar "POSTGRES_PASSWORD"
       (SecretKeyRef "my-backend-postgres-secret" "password"))
  = Some "supersecret".
Proof. reflexivity. Qed.

(** X9.  The PostgreSQL targets of the Makefile address what the chart
    renders for the same release name: [helm-destroy-backend] deletes the
    one claim the StatefulSet gets, and [pf-postgres] forwards to the name
    and port of the PostgreSQL Service. *)
Theorem makefile_postgres_targets (vars : Vars) (v : BackendValues) :
  claim_names (postgres_statefulset (RELEASE_NAME vars) v)
    = [destroy_backend_pvc vars] /\
  svc_name (postgres_service (RELEASE_NAME vars)) = pf_postgres_service vars /\
  svc_port (postgres_service (RELEASE_NAME vars)) = pf_postgres_port /\
  destroy_backend_pvc vars = storage_claim_name (RELEASE_NAME vars).
Proof.
  unfold claim_names, destroy_backend_pvc, storage_claim_name, postgres_name,
    claim_template.
  cbn [postgres_statefulset ss_replicas ss_claimTemplate ss_name seq map].
  unfold claim_template.
  repeat split.
  - f_equal. change (decimal 0) with "0".
    rewrite !append_assoc. reflexivity.
  - rewrite !append_assoc. reflexivity.
Qed.

End RuntimeFacts.

(** ** The deploy scripts and the Makefile *)

Section ScriptFacts.
Import Sprig Helpers Identifiers Makefile DeployScript.

Lemma prefix_append (sub a b : string) :
  String.prefix sub a = true -> String.prefix sub (a ++ b) = true.
Proof.
  revert a. induction sub as [|c sub IH]; intros a H;
    [destruct (a ++ b); reflexivity |].
  destruct a as [|x a]; [discriminate |].
  cbn [append String.prefix] in *.
  destruct (ascii_dec c x); [now apply IH | discriminate].
Qed.

Lemma contains_append (sub a b : string) :
  contains sub a = true -> contains sub (a ++ b) = true.
Proof.
  induction a as [|x a IH]; intros H.
  - cbn [contains] in H. rewrite orb_false_r in H.
    destruct sub; [| discriminate]. destruct b; reflexivity.
  - cbn [append contains] in *. apply orb_true_iff in H as [H|H].
    + change (String x (a ++ b)) with (String x a ++ b).
      now rewrite (prefix_append _ _ b H).
    + rewrite (IH H). now rewrite orb_true_r.
Qed.

Lemma arg_or_not_empty (args : list string) (i : nat) (dflt : string) :
  dflt <> EmptyString -> arg_or args i dflt <> EmptyString.
Proof.
  intros H. unfold arg_or.
  destruct (nth_error args i) as [a|]; [| exact H].
  destruct (truthy a) eqn:E; [| exact H].
  intros ->. discriminate.
Qed.

Lemma instance_refl (n : string) : instance n n.
Proof. induction n; constructor; assumption. Qed.

Lemma pattern_of_chars (n : string) (pat : list PatChar) :
  pattern_of n = Some pat -> pattern_chars n = Some pat.
Proof.
  destruct n as [|c n]; [discriminate |]. unfold pattern_of.
  now destruct (lower_alnum c).
Qed.

(** The pattern of a name matches at the start of a text exactly when
    the text starts with an instance of the name. *)
Lemma match_here_instance (n : string) :
  forall pat s, pattern_chars n = Some pat ->
  (match_here pat s = true <->
   exists mid post, s = mid ++ post /\ instance n mid).
Proof.
  induction n as [|c n IH]; intros pat s Hp.
  - injection Hp as <-. split; [| reflexivity].
    intros _. exists EmptyString, s. split; [reflexivity | constructor].
  - cbn [pattern_chars] in Hp.
    destruct (pattern_char c) as [pc|] eqn:Ec; [| discriminate].
    destruct (pattern_chars n) as [l|] eqn:El; [| discriminate].
    injection Hp as <-. specialize (IH l).
    unfold pattern_char in Ec.
    destruct (label_char c) eqn:Elc.
    + injection Ec as <-.
      destruct s as [|x s]; cbn [match_here].
      * split; [discriminate |].
        intros (mid & post & E & Hi). inversion Hi; subst; discriminate.
      * rewrite andb_true_iff, (IH s eq_refl). split.
        -- intros (Ecx & mid & post & -> & Hi).
           apply Ascii.eqb_eq in Ecx as <-.
           exists (String c mid), post. split; [reflexivity |].
           now constructor.
        -- intros (mid & post & E & Hi). inversion Hi; subst.
           ++ injection E as <- ->. split; [apply Ascii.eqb_refl |].
              now exists m, post.
           ++ discriminate.
    + destruct (Ascii.eqb c ".") eqn:Edot; [| discriminate].
      injection Ec as <-. apply Ascii.eqb_eq in Edot as ->.
      destruct s as [|x s]; cbn [match_here].
      * split; [discriminate |].
        intros (mid & post & E & Hi). inversion Hi; subst; discriminate.
      * rewrite (IH s eq_refl). split.
        -- intros (mid & post & -> & Hi).
           exists (String x mid), post. split; [reflexivity |].
           now constructor.
        -- intros (mid & post & E & Hi). inversion Hi; subst;
             injection E as _ E; now exists m, post.
Qed.

(** It matches in a line exactly when the line holds an instance. *)
Lemma match_line_instance (n : string) (pat : list PatChar) :
  pattern_chars n = Some pat ->
  forall line,
  match_line pat line = true <->
  exists pre mid post, line = pre ++ mid ++ post /\ instance n mid.
Proof.
  intros Hp. induction line as [|x line IH]; cbn [match_line].
  - rewrite orb_false_r, (match_here_instance n pat _ Hp). split.
    + intros (mid & post & E & Hi). now exists EmptyString, mid, post.
    + intros (pre & mid & post & E & Hi).
      destruct pre; [| discriminate]. now exists mid, post.
  - rewrite orb_true_iff, (match_here_instance n pat _ Hp), IH. split.
    + intros [(mid & post & E & Hi) | (pre & mid & post & E & Hi)].
      * now exists EmptyString, mid, post.
      * exists (String x pre), mid, post. now rewrite E.
    + intros (pre & mid & post & E & Hi). destruct pre as [|y pre].
      * left. now exists mid, post.
      * right. injection E as _ E. now exists pre, mid, post.
Qed.

(** The test of the scripts, for a name that has a pattern. *)
Lemma release_listed_instance (helm_list : string -> list string)
    (p : Params) :
  pattern_of (p_release p) <> None ->
  exists b, release_listed helm_list p = Some b /\
  (b = true <->
   exists line pre mid post,
     In line (helm_list (p_namespace p)) /\
     line = pre ++ mid ++ post /\ instance (p_release p) mid).
Proof.
  intros Hp. unfold release_listed.
  destruct (pattern_of (p_release p)) as [pat|] eqn:E; [| contradiction].
  apply pattern_of_chars in E.
  exists (grep_q pat (helm_list (p_namespace p))).
  split; [reflexivity |]. unfold grep_q. rewrite existsb_exists. split.
  - intros (line & Hin & Hm).
    apply (match_line_instance _ _ E) in Hm as (pre & mid & post & El & Hi).
    now exists line, pre, mid, post.
  - intros (line & pre & mid & post & Hin & El & Hi).
    exists line. split; [exact Hin |].
    apply (match_line_instance _ _ E). now exists pre, mid, post.
Qed.

(** X10.  The deploy scripts choose between install and upgrade by
    searching the listing of helm for the release name, which grep reads
    as a regular expression.  For a release name made of lowercase
    letters, digits, hyphens and dots that starts with a letter or a
    digit, they upgrade exactly when some line of the listing holds an
    instance of the name, the name with any character in the place of
    each dot, and install otherwise.  So they upgrade when the release is
    listed, and also when only a longer name (my-frontend-2 for
    my-frontend) or, for a name with a dot, a name that differs at the
    dot (abc for a.c) is.  The release name they pass is never empty, and
    the frontend script always sets backend.releaseName. *)
Theorem deploy_script_decision (helm_list : string -> list string)
    (args : list string) :
  let p := frontend_params args in
  let q := backend_params args in
  pattern_of (p_release p) <> None ->
  pattern_of (p_release q) <> None ->
  let listed (r : Params) :=
    exists line pre mid post,
      In line (helm_list (p_namespace r)) /\
      line = pre ++ mid ++ post /\ instance (p_release r) mid in
  p_release p <> EmptyString /\ p_release q <> EmptyString /\
  (listed p ->
   frontend_command helm_list args =
   Some (Upgrade (p_release p) (p_namespace p)
           [("backend.releaseName", p_backend p)])) /\
  (~ listed p ->
   frontend_command helm_list args =
   Some (Install (p_release p) (p_namespace p)
           [("backend.releaseName", p_backend p)])) /\
  (listed q ->
   backend_command helm_list args =
   Some (Upgrade (p_release q) (p_namespace q) [])) /\
  (~ listed q ->
   backend_command helm_list args =
   Some (Install (p_release q) (p_namespace q) [])) /\
  (forall pre post,
     In (pre ++ p_release p ++ post) (helm_list (p_namespace p)) ->
     listed p).
Proof.
  intros p q Hp Hq listed.
  split; [apply arg_or_not_empty; discriminate |].
  split; [apply arg_or_not_empty; discriminate |].
  destruct (release_listed_instance helm_list p Hp) as (bp & Ep & Hbp).
  destruct (release_listed_instance helm_list q Hq) as (bq & Eq & Hbq).
  fold (listed p) in Hbp. fold (listed q) in Hbq.
  unfold frontend_command, backend_command. fold p. fold q.
  rewrite Ep, Eq.
  split; [intros H; apply Hbp in H; now subst bp |].
  split.
  { intros H. destruct bp; [| reflexivity].
    exfalso. apply H. now apply Hbp. }
  split; [intros H; apply Hbq in H; now subst bq |].
  split.
  { intros H. destruct bq; [| reflexivity].
    exfalso. apply H. now apply Hbq. }
  intros pre post Hin.
  exists (pre ++ p_release p ++ post), pre, (p_release p), post.
  split; [exact Hin |]. split; [reflexivity | apply instance_refl].
Qed.

Lemma deploy_script_decision_witness :
  let listing := fun _ : string =>
    ["NAME NAMESPACE REVISION"; "my-frontend-2 default 1"] in
  pattern_of (p_release (frontend_params [])) <> None /\
  frontend_command listing [] =
  Some (Upgrade "my-frontend" "default"
          [("backend.releaseName", "my-backend")]).
Proof.
  intros listing.
  assert (Hp : pattern_of (p_release (frontend_params [])) <> None)
    by discriminate.
  assert (Hq : pattern_of (p_release (backend_params [])) <> None)
    by discriminate.
  split; [exact Hp |].
  pose proof (deploy_script_decision listing [] Hp Hq) as H.
  cbv zeta in H. destruct H as (_ & _ & Hup & _ & _ & _ & Hself).
  apply Hup. apply (Hself EmptyString "-2 default 1").
  right. left. reflexivity.
Defined.

(** A name with a dot: with only abc listed, the script run for a.c
    upgrades; and with nothing but the header listed it installs. *)
Example deploy_script_dot :
  frontend_command (fun _ => ["NAME NAMESPACE"; "abc default"]) ["a.c"] =
  Some (Upgrade "a.c" "default" [("backend.releaseName", "my-backend")]) /\
  frontend_command (fun _ => ["NAME NAMESPACE"]) ["web"; "prod"; "api"] =
  Some (Install "web" "prod" [("backend.releaseName", "api")]).
Proof. split; reflexivity. Qed.

(** A text with an operator of the expression syntax has no pattern in
    this model. *)
Example deploy_script_outside_model :
  frontend_command (fun _ => []) ["a*"] = None.
Proof. reflexivity. Qed.

Lemma label_char_not_blank (c : ascii) :
  label_char c = true -> is_blank c = false.
Proof.
  intros H. unfold is_blank.
  destruct (Ascii.eqb_spec c " ") as [->|_]; [discriminate |].
  destruct (Ascii.eqb_spec c (ascii_of_nat 9)) as [->|_]; [discriminate |].
  destruct (Ascii.eqb_spec c (ascii_of_nat 10)) as [->|_]; [discriminate |].
  reflexivity.
Qed.

(** A word is read to its end before the line is split. *)
Lemma words_from_word (w cur rest : string) :
  all_chars label_char w = true ->
  words_from cur (w ++ rest) = words_from (cur ++ w) rest.
Proof.
  revert cur. induction w as [|c w IH]; intros cur H.
  - now rewrite append_nil_r.
  - cbn [all_chars] in H. apply andb_true_iff in H as [Hc Hw].
    cbn [append words_from]. rewrite (label_char_not_blank c Hc).
    rewrite IH by exact Hw. now rewrite append_assoc.
Qed.

Lemma helm_local_frontend_words (v : Vars) :
  all_chars label_char (FRONTEND_RELEASE v) = true ->
  all_chars label_char (NAMESPACE v) = true ->
  all_chars label_char (RELEASE_NAME v) = true ->
  helm_local_frontend_args v =
  (given (FRONTEND_RELEASE v) ++ given (NAMESPACE v) ++
   given (RELEASE_NAME v))%list.
Proof.
  intros H1 H2 H3. unfold helm_local_frontend_args, words, given.
  rewrite words_from_word by exact H1. cbn [append words_from is_blank].
  cbn [Ascii.eqb Bool.eqb orb].
  assert (E : forall cur, words_from cur (NAMESPACE v ++ " " ++ RELEASE_NAME v)
                = words_from (cur ++ NAMESPACE v) (" " ++ RELEASE_NAME v)).
  { intros cur. now apply words_from_word. }
  assert (F : words_from EmptyString (RELEASE_NAME v) =
              if truthy (RELEASE_NAME v) then [RELEASE_NAME v] else []).
  { rewrite <- (append_nil_r (RELEASE_NAME v)) at 1.
    rewrite words_from_word by exact H3. reflexivity. }
  destruct (truthy (FRONTEND_RELEASE v)); rewrite E; cbn [append words_from];
    cbn [is_blank Ascii.eqb Bool.eqb orb];
    destruct (truthy (NAMESPACE v)); rewrite F; reflexivity.
Qed.

(** X11.  [make helm-local-frontend] hands the script its three
    variables as the release, the namespace and the backend release when
    none of them is empty.  An empty variable leaves no word on the
    command line, so the later ones move up: with FRONTEND_RELEASE empty
    the frontend is deployed as release NAMESPACE into namespace
    RELEASE_NAME, against the default backend my-backend. *)
Theorem makefile_passes_arguments (v : Vars) :
  all_chars label_char (FRONTEND_RELEASE v) = true ->
  all_chars label_char (NAMESPACE v) = true ->
  all_chars label_char (RELEASE_NAME v) = true ->
  (FRONTEND_RELEASE v <> EmptyString -> NAMESPACE v <> EmptyString ->
   RELEASE_NAME v <> EmptyString ->
   frontend_params (helm_local_frontend_args v) =
   mkParams (FRONTEND_RELEASE v) (NAMESPACE v) (RELEASE_NAME v)) /\
  (FRONTEND_RELEASE v = EmptyString -> NAMESPACE v <> EmptyString ->
   RELEASE_NAME v <> EmptyString ->
   frontend_params (helm_local_frontend_args v) =
   mkParams (NAMESPACE v) (RELEASE_NAME v) "my-backend") /\
  (RELEASE_NAME v = EmptyString -> FRONTEND_RELEASE v <> EmptyString ->
   NAMESPACE v <> EmptyString ->
   frontend_params (helm_local_frontend_args v) =
   mkParams (FRONTEND_RELEASE v) (NAMESPACE v) "my-backend").
Proof.
  intros H1 H2 H3. rewrite (helm_local_frontend_words v H1 H2 H3).
  assert (T : forall s, s <> EmptyString -> truthy s = true).
  { intros s Hs. unfold truthy. now rewrite negb_true_iff, String.eqb_neq. }
  unfold given, frontend_params, arg_or. repeat split.
  - intros A B C. rewrite !(T _ A), !(T _ B), !(T _ C).
    cbn [app nth_error]. now rewrite !(T _ A), !(T _ B), !(T _ C).
  - intros A B C. rewrite A, !(T _ B), !(T _ C).
    cbn [truthy String.eqb negb app nth_error]. now rewrite !(T _ B), !(T _ C).
  - intros A B C. rewrite A, !(T _ B), !(T _ C).
    cbn [truthy String.eqb negb app nth_error]. now rewrite !(T _ B), !(T _ C).
Qed.

Lemma makefile_passes_arguments_witness :
  all_chars label_char (FRONTEND_RELEASE (mkVars "my-backend" EmptyString "staging")) = true /\
  frontend_params
    (helm_local_frontend_args (mkVars "my-backend" EmptyString "staging")) =
  mkParams "staging" "my-backend" "my-backend" /\
  frontend_params (helm_local_frontend_args default_vars) =
  mkParams "my-frontend" "default" "my-backend".
Proof.
  split; [reflexivity |].
  destruct (makefile_passes_arguments
              (mkVars "my-backend" EmptyString "staging")
              eq_refl eq_refl eq_refl) as (_ & Hshift & _).
  destruct (makefile_passes_arguments default_vars eq_refl eq_refl eq_refl)
    as (Hall & _).
  split.
  - apply Hshift; [reflexivity | discriminate | discriminate].
  - apply Hall; discriminate.
Defined.

End ScriptFacts.

(** ** The items page *)

Section ItemsPageFacts.
Import Sprig Frontend ItemsPage.

(** X12.  A description survives the trip through the page: what the
    create form sends for a text, the dialog shows again as that text; an
    empty text is sent as null, never as an empty string.  Submitting the
    dialog on an item as it is shown sends nothing when the item's title
    is blank; otherwise it sends the item's id and title and its
    description back, unless the item holds an empty string, which is
    sent as null. *)
Theorem description_round_trip (blank : string -> bool) (text : string)
    (i : Item) :
  dialog_description (payload_description text) = text /\
  payload_description text <> Some EmptyString /\
  (blank (item_title i) = true -> saved_unchanged blank i = None) /\
  (blank (item_title i) = false ->
   item_description i <> Some EmptyString ->
   saved_unchanged blank i =
   Some (mkUpdateRequest (item_id i) (item_title i) (item_description i))) /\
  (blank (item_title i) = false ->
   item_description i = Some EmptyString ->
   saved_unchanged blank i =
   Some (mkUpdateRequest (item_id i) (item_title i) None)).
Proof.
  assert (T : forall s, truthy s = false -> s = EmptyString).
  { intros s H. unfold truthy in H. apply negb_false_iff in H.
    now apply String.eqb_eq in H. }
  unfold saved_unchanged, handleSubmit, update_request.
  cbn [dialog_fields fst snd].
  repeat split.
  - unfold payload_description, dialog_description.
    destruct (truthy text) eqn:E; [now rewrite E |].
    symmetry. now apply T.
  - unfold payload_description. destruct (truthy text) eqn:E; [| discriminate].
    intros H. injection H as ->. discriminate.
  - intros Hb. now rewrite Hb.
  - intros Hb H. rewrite Hb. do 2 f_equal.
    unfold payload_description, dialog_description.
    destruct (item_description i) as [d|]; [| reflexivity].
    destruct (truthy d) eqn:E; [now rewrite E |].
    exfalso. apply H. f_equal. now apply T.
  - intros Hb H. rewrite Hb, H. reflexivity.
Qed.

Lemma description_round_trip_witness :
  let blank := fun t : string => String.eqb t EmptyString in
  blank (item_title (mkItem 1 "milk" (Some "two litres"))) = false /\
  item_description (mkItem 1 "milk" (Some "two litres")) <> Some EmptyString /\
  saved_unchanged blank (mkItem 1 "milk" (Some "two litres"))
  = Some (mkUpdateRequest 1 "milk" (Some "two litres")) /\
  blank (item_title (mkItem 2 EmptyString None)) = true /\
  saved_unchanged blank (mkItem 2 EmptyString None) = None.
Proof.
  intros blank.
  assert (H : item_description (mkItem 1 "milk" (Some "two litres"))
              <> Some EmptyString) by discriminate.
  split; [reflexivity |]. split; [exact H |].
  destruct (description_round_trip blank "x"
              (mkItem 1 "milk" (Some "two litres")))
    as (_ & _ & _ & Hsame & _).
  destruct (description_round_trip blank "x" (mkItem 2 EmptyString None))
    as (_ & _ & Hblank & _).
  split; [exact (Hsame eq_refl H) |].
  split; [reflexivity | exact (Hblank eq_refl)].
Defined.

Lemma step_keeps_dialog_invariant (blank : string -> bool) (s : State)
    (e : Event) :
  (isDialogOpen s = false -> editingItem s = None) ->
  isDialogOpen (step blank s e) = false -> editingItem (step blank s e) = None.
Proof.
  intros Inv. destruct e; cbn [step start_fetch isDialogOpen editingItem];
    try exact Inv; try reflexivity; try discriminate.
  - destruct (blank (title s)); cbn [isDialogOpen editingItem]; exact Inv.
  - destruct open; [discriminate | reflexivity].
Qed.

(** X13.  Whatever the user does and the server answers, in any order, a
    closed dialog holds no item: after every sequence of events, the
    edited item is null whenever the dialog is not open. *)
Theorem closed_dialog_holds_no_item (blank : string -> bool)
    (events : list Event) :
  isDialogOpen (run blank events) = false ->
  editingItem (run blank events) = None.
Proof.
  unfold run.
  assert (G : forall s, (isDialogOpen s = false -> editingItem s = None) ->
              isDialogOpen (fold_left (step blank) events s) = false ->
              editingItem (fold_left (step blank) events s) = None).
  { induction events as [|e events IH]; intros s Inv; [exact Inv |].
    cbn [fold_left]. apply IH. now apply step_keeps_dialog_invariant. }
  apply G. reflexivity.
Qed.

Lemma closed_dialog_holds_no_item_witness :
  let events := [FetchStarted; EditClicked (mkItem 1 "milk" None);
                 UpdateFailed "Failed to update item";
                 DialogOpenChanged false] in
  isDialogOpen (run (fun _ => false) events) = false /\
  editingItem (run (fun _ => false) events) = None.
Proof.
  intros events. split; [reflexivity |].
  apply (closed_dialog_holds_no_item (fun _ => false) events). reflexivity.
Defined.

End ItemsPageFacts.

Section ItemsPageFrame.
Import ItemsPage.

(** X14.  The create form loses its text only on a successful create: no
    other event than typing changes the title or the description, so a
    failed create, a failed or successful update or delete and every
    refresh leave what the user typed in place. *)
Theorem form_text_is_kept (blank : string -> bool) (s : State) (e : Event) :
  (forall t, e <> TitleTyped t) ->
  (forall d, e <> DescriptionTyped d) ->
  e <> CreateSucceeded ->
  title (step blank s e) = title s /\
  description (step blank s e) = description s.
Proof.
  intros Ht Hd Hc. destruct e; cbn [step start_fetch title description];
    try (split; reflexivity).
  - exfalso. now apply (Ht text).
  - exfalso. now apply (Hd text).
  - destruct (blank (title s)); split; reflexivity.
  - exfalso. now apply Hc.
Qed.

Lemma form_text_is_kept_witness :
  let s := step (fun _ => false) initial (TitleTyped "milk") in
  (forall t, CreateFailed "Failed to create item" <> TitleTyped t) /\
  title (step (fun _ => false) s (CreateFailed "Failed to create item"))
    = "milk".
Proof.
  intros s.
  assert (H1 : forall t, CreateFailed "Failed to create item" <> TitleTyped t)
    by (intros t; discriminate).
  split; [exact H1 |].
  destruct (form_text_is_kept (fun _ => false) s
              (CreateFailed "Failed to create item") H1
              ltac:(intros d; discriminate) ltac:(discriminate)) as [Ht _].
  exact Ht.
Defined.

End ItemsPageFrame.

(** ** Ranging over a map, in order *)

Section RangeOrder.
Import Templates EnvOrder.

Lemma insert_by_key_sorted (x : string * string) (l : EnvMap) :
  Sorted.Sorted key_le l -> Sorted.Sorted key_le (insert_by_key x l).
Proof.
  induction l as [|h l IH]; intros Hs; cbn [insert_by_key].
  - repeat constructor.
  - destruct (String.leb (fst x) (fst h)) eqn:E.
    + constructor; [exact Hs | constructor; exact E].
    + inversion Hs as [| ? ? Hs' Hhd]; subst.
      constructor; [now apply IH |].
      destruct l as [|h' l]; cbn [insert_by_key].
      * constructor. now apply leb_false_flip.
      * destruct (String.leb (fst x) (fst h')).
        -- constructor. now apply leb_false_flip.
        -- inversion Hhd; subst. now constructor.
Qed.

Lemma sorted_entries_sorted (m : EnvMap) :
  Sorted.Sorted key_le (sorted_entries m).
Proof.
  induction m as [|x m IH]; cbn [sorted_entries fold_right];
    [constructor | now apply insert_by_key_sorted].
Qed.

(** X15.  The literal entries of a rendered [env] are the entries of the
    values' map, each exactly once, in ascending order of their names:
    the range neither drops nor adds nor repeats an entry, whatever the
    order the map holds them in. *)
Theorem range_env_sorted_permutation (m : EnvMap) :
  Sorted.Sorted (fun a b => String.leb (env_name a) (env_name b) = true)
    (range_env m) /\
  Permutation (map (fun kv => mkEnvVar (fst kv) (Value (snd kv))) m)
    (range_env m) /\
  List.length (range_env m) = List.length m.
Proof.
  split; [| split].
  - unfold range_env.
    pose proof (sorted_entries_sorted m) as H.
    induction H as [|a l Hs IH Hhd]; cbn [map]; constructor.
    + exact IH.
    + destruct Hhd; cbn [map]; constructor. assumption.
  - unfold range_env. apply Permutation_map. symmetry.
    apply sorted_entries_perm.
  - unfold range_env. rewrite length_map.
    apply Permutation_length, sorted_entries_perm.
Qed.

End RangeOrder.

(** ** How long the gate holds the backend *)

Section GateLatency.
Import Helpers Templates.

(** X16.  Once PostgreSQL answers, the backend starts within two seconds:
    if the address is unreachable before time T and reachable from T on,
    the init container completes at its first probe at or after T, less
    than two seconds after T, having written one waiting line per failed
    probe; allowing it more probes changes nothing. *)
Theorem gate_opens_within_two_seconds
    (reach : string -> Z -> nat -> bool) (R : string) (T : nat) :
  (forall t, t < T -> reach (postgres_name R) 5432%Z t = false) ->
  (forall t, T <= t -> reach (postgres_name R) 5432%Z t = true) ->
  exists k,
    T <= 2 * k /\ 2 * k < T + 2 /\
    forall n, k < n ->
      Gate.run reach (ic_script (wait_for_postgres R)) n Gate.initial =
      Gate.Completed (Gate.mkState (2 * k) (repeat waiting_line k)).
Proof.
  intros Hdown Hup. exists ((T + 1) / 2).
  assert (Hk : T <= 2 * ((T + 1) / 2) /\ 2 * ((T + 1) / 2) < T + 2).
  { zify; Z.div_mod_to_equations; lia. }
  destruct Hk as [Hk1 Hk2]. split; [exact Hk1 |]. split; [exact Hk2 |].
  intros n Hn. set (k := (T + 1) / 2) in *.
  replace n with (k + S (n - S k)) by lia.
  unfold Gate.initial. rewrite gate_retries.
  - cbn [Gate.run wait_for_postgres ic_script nc_host nc_port Gate.clock
         Nat.add app].
    fold (postgres_name R). rewrite Hup by lia. reflexivity.
  - intros j Hj. apply Hdown. cbn [Nat.add]. lia.
Qed.

Lemma gate_opens_within_two_seconds_witness :
  let reach := fun (_ : string) (_ : Z) (t : nat) => Nat.leb 5 t in
  (forall t, t < 5 -> reach (postgres_name "my-backend") 5432%Z t = false) /\
  exists k,
    5 <= 2 * k /\ 2 * k < 7 /\
    Gate.run reach (ic_script (wait_for_postgres "my-backend")) (S k)
      Gate.initial =
    Gate.Completed (Gate.mkState (2 * k) (repeat waiting_line k)).
Proof.
  intros reach.
  assert (Hdown : forall t, t < 5 ->
            reach (postgres_name "my-backend") 5432%Z t = false).
  { intros t Ht. unfold reach. apply Nat.leb_gt. exact Ht. }
  assert (Hup : forall t, 5 <= t ->
            reach (postgres_name "my-backend") 5432%Z t = true).
  { intros t Ht. unfold reach. apply Nat.leb_le. exact Ht. }
  split; [exact Hdown |].
  destruct (gate_opens_within_two_seconds reach "my-backend" 5 Hdown Hup)
    as (k & H1 & H2 & Hrun).
  exists k. split; [exact H1 |]. split; [exact H2 |].
  apply Hrun. lia.
Defined.

End GateLatency.

(** ** The form of a Secret's data *)

Section Base64FormatFacts.
Import Identifiers Base64 Base64Format Templates Inspect.

Local Ltac div_mod_lia := zify; Z.div_mod_to_equations; lia.

Lemma symbol_char_of (i : nat) : i < 64 -> symbol (char_of i) = true.
Proof.
  intros H. unfold symbol.
  destruct (index_of_char_of i H) as [E _]. now rewrite E.
Qed.

Lemma b64enc_form_3 (s : string) :
  (String.length (b64enc s) = 4 * ((String.length s + 2) / 3) /\
   all_chars symbol (b64enc s) = true) /\
  (forall a,
     String.length (b64enc (String a s))
       = 4 * ((String.length (String a s) + 2) / 3) /\
     all_chars symbol (b64enc (String a s)) = true) /\
  (forall a b,
     String.length (b64enc (String a (String b s)))
       = 4 * ((String.length (String a (String b s)) + 2) / 3) /\
     all_chars symbol (b64enc (String a (String b s))) = true).
Proof.
  induction s as [|c s ((L0 & A0) & IH1 & IH2)].
  - split; [split; reflexivity |]. split.
    + intros a. pose proof (nat_ascii_bounded a).
      cbn [b64enc all_chars]. split; [reflexivity |].
      rewrite !symbol_char_of by div_mod_lia. reflexivity.
    + intros a b. pose proof (nat_ascii_bounded a).
      pose proof (nat_ascii_bounded b).
      cbn [b64enc all_chars]. split; [reflexivity |].
      rewrite !symbol_char_of by div_mod_lia. reflexivity.
  - split; [apply IH1 |]. split; [intros a; apply IH2 |].
    intros a b. pose proof (nat_ascii_bounded a).
    pose proof (nat_ascii_bounded b). pose proof (nat_ascii_bounded c).
    cbn [b64enc all_chars String.length]. split.
    + rewrite L0. div_mod_lia.
    + rewrite !symbol_char_of by div_mod_lia. rewrite A0. reflexivity.
Qed.

(** X17.  Every field of a rendered Secret is well-formed base64: made of
    the 64 characters of the alphabet and the padding character, four
    characters for every three bytes of the value, rounded up; and two
    different values never give the same field. *)
Theorem secret_data_is_base64 (R : string) (v : BackendValues)
    (key stored : string) (other : string) :
  secret_field (postgres_secret R v) key = Some stored ->
  exists literal,
    credential (pg_auth (b_postgres v)) key = Some literal /\
    stored = b64enc literal /\
    all_chars symbol stored = true /\
    String.length stored = 4 * ((String.length literal + 2) / 3) /\
    (b64enc other = stored -> other = literal).
Proof.
  intros H. unfold secret_field, postgres_secret in H.
  cbn [sec_data assoc] in H. unfold credential.
  rewrite (String.eqb_sym "username"), (String.eqb_sym "password"),
    (String.eqb_sym "database") in H.
  assert (G : forall literal, stored = b64enc literal ->
            stored = b64enc literal /\
            all_chars symbol stored = true /\
            String.length stored = 4 * ((String.length literal + 2) / 3) /\
            (b64enc other = stored -> other = literal)).
  { intros literal ->. destruct (b64enc_form_3 literal) as ((L & A) & _).
    repeat split; try assumption.
    intros E. apply (f_equal b64dec) in E.
    rewrite !b64dec_b64enc in E. now injection E. }
  destruct (String.eqb key "username").
  { injection H as <-. eexists. split; [reflexivity | now apply G]. }
  destruct (String.eqb key "password").
  { injection H as <-. eexists. split; [reflexivity | now apply G]. }
  destruct (String.eqb key "database"); [| discriminate].
  injection H as <-. eexists. split; [reflexivity | now apply G].
Qed.

Lemma secret_data_is_base64_witness :
  secret_field (postgres_secret "my-backend" default_backend_values)
    "username" = Some "YXBwdXNlcg==" /\
  exists literal,
    credential (pg_auth (b_postgres default_backend_values)) "username"
      = Some literal /\
    String.length "YXBwdXNlcg==" = 4 * ((String.length literal + 2) / 3).
Proof.
  split; [reflexivity |].
  destruct (secret_data_is_base64 "my-backend" default_backend_values
              "username" "YXBwdXNlcg==" "x" eq_refl)
    as (literal & Hc & _ & _ & Hl & _).
  exists literal. split; [exact Hc | exact Hl].
Defined.

End Base64FormatFacts.
